(** * utest: a header-only unit-test harness (src/utest/utest.h)

    The header is a set of preprocessor macros over three process-wide
    counters, the standard output stream, C++ exceptions and [exit].  The
    embedding below keeps that shape: a macro becomes a function of the same
    name, a macro argument that is an expression becomes an [expr] (its source
    text, which the macros stringify, together with its evaluation, which may
    have side effects, throw or leave the process), and the globals live in an
    explicit [state] threaded by an execution monad with three outcomes:
    normal completion, a propagating exception, and process exit. *)

From Stdlib Require Import String Ascii NArith ZArith List Bool Lia DecimalString.
From Stdlib Require Import Floats.
From ExtLib Require Import Structures.Monad Structures.MonadExc.
Import ListNotations.
Import MonadNotation.

Set Implicit Arguments.
Set Warnings "-inexact-float".

Local Open Scope string_scope.
Local Open Scope N_scope.
Local Open Scope monad_scope.

(** ** Machine integers and process status *)

(** [std::size_t], the type of the three counters, taken at its width on
    the 64-bit targets. *)
Definition SIZE_WIDTH : N := 64.
Definition SIZE_MAX : N := 2 ^ SIZE_WIDTH - 1.

(** [++ n] on a [std::size_t]: unsigned arithmetic wraps. *)
Definition size_incr (n : N) : N := (n + 1) mod 2 ^ SIZE_WIDTH.

(** The two statuses of <cstdlib> that the header passes to [exit]. *)
Definition EXIT_SUCCESS : Z := 0%Z.
Definition EXIT_FAILURE : Z := 1%Z.

(** ** Exceptions *)

(** enum class exception_status *)
Inductive exception_status : Set :=
| none
| expected
| unexpected.

(** A thrown object.  [exn_types] lists the types a handler can bind it to:
    its own type and its public bases ([std::runtime_error] is thrown as
    ["std::runtime_error"; "std::exception"], [throw 42] as ["int"]).
    [exn_what] is the description the object carries: what [what()] returns
    for an object that derives from [std::exception], the characters of a
    thrown string, nothing for [throw 42]. *)
Record exn : Type := Thrown {
  exn_types : list string;
  exn_what : string
}.

(** [catch (texception&)] selects the handler iff the thrown object can be
    bound to [texception]. *)
Definition handler_matches (texception : string) (e : exn) : bool :=
  existsb (String.eqb texception) (exn_types e).

(** ** Process state *)

(** What the header changes of the formatting of [std::cout]: the notation
    of floating-point numbers ([std::fixed] or the default) and the
    precision. *)
Record stream_format : Type := Format {
  fixed : bool;
  precision : N
}.

(** A stream as the library creates it, and the one [std::fixed] and
    [std::setprecision(12)] leave. *)
Definition default_format : stream_format := Format false 6.
Definition fixed12 : stream_format := Format true 12.

Record state (U : Type) : Type := State {
  utest_case_name : string;
  utest_module_name : string;
  utest_n_cases : N;
  utest_n_checks : N;
  utest_n_failures : N;
  cout : string;          (* the characters written to std::cout so far *)
  cout_format : stream_format;
  user : U                (* the state of the code under test *)
}.

Arguments State {U} _ _ _ _ _ _ _ _.
Arguments utest_case_name {U} _.
Arguments utest_module_name {U} _.
Arguments utest_n_cases {U} _.
Arguments utest_n_checks {U} _.
Arguments utest_n_failures {U} _.
Arguments cout {U} _.
Arguments cout_format {U} _.
Arguments user {U} _.

(** The statics of lines 15-20 as the loader initialises them. *)
Definition initial {U : Type} (u : U) : state U :=
  State EmptyString EmptyString 0 0 0 EmptyString default_format u.

Definition set_case_name {U} (v : string) (s : state U) : state U :=
  State v (utest_module_name s) (utest_n_cases s) (utest_n_checks s)
        (utest_n_failures s) (cout s) (cout_format s) (user s).

Definition set_module_name {U} (v : string) (s : state U) : state U :=
  State (utest_case_name s) v (utest_n_cases s) (utest_n_checks s)
        (utest_n_failures s) (cout s) (cout_format s) (user s).

Definition set_n_cases {U} (v : N) (s : state U) : state U :=
  State (utest_case_name s) (utest_module_name s) v (utest_n_checks s)
        (utest_n_failures s) (cout s) (cout_format s) (user s).

Definition set_n_checks {U} (v : N) (s : state U) : state U :=
  State (utest_case_name s) (utest_module_name s) (utest_n_cases s) v
        (utest_n_failures s) (cout s) (cout_format s) (user s).

Definition set_n_failures {U} (v : N) (s : state U) : state U :=
  State (utest_case_name s) (utest_module_name s) (utest_n_cases s)
        (utest_n_checks s) v (cout s) (cout_format s) (user s).

Definition set_cout {U} (v : string) (s : state U) : state U :=
  State (utest_case_name s) (utest_module_name s) (utest_n_cases s)
        (utest_n_checks s) (utest_n_failures s) v (cout_format s) (user s).

Definition set_cout_format {U} (v : stream_format) (s : state U) : state U :=
  State (utest_case_name s) (utest_module_name s) (utest_n_cases s)
        (utest_n_checks s) (utest_n_failures s) (cout s) v (user s).

Definition set_user {U} (v : U) (s : state U) : state U :=
  State (utest_case_name s) (utest_module_name s) (utest_n_cases s)
        (utest_n_checks s) (utest_n_failures s) (cout s) (cout_format s) v.

(** ** The execution monad *)

(** How a piece of C++ ends: it completes with a value, it leaves by a
    propagating exception, or it calls [exit], after which nothing of the
    program runs any more. *)
Inductive result (U A : Type) : Type :=
| Ret (a : A) (s : state U)
| Raise (e : exn) (s : state U)
| Halt (code : Z) (s : state U).

Arguments Ret {U A} _ _.
Arguments Raise {U A} _ _.
Arguments Halt {U A} _ _.

Definition exec (U A : Type) : Type := state U -> result U A.

Definition final {U A} (r : result U A) : state U :=
  match r with
  | Ret _ s => s
  | Raise _ s => s
  | Halt _ s => s
  end.

#[export] Instance Monad_exec {U} : Monad (exec U) := {
  ret := fun A (a : A) s => Ret a s;
  bind := fun A B (m : exec U A) (k : A -> exec U B) s =>
    match m s with
    | Ret a s' => k a s'
    | Raise e s' => Raise e s'
    | Halt c s' => Halt c s'
    end
}.

(** [throw] and [try { m } catch (...) { h }].  A handler sees exceptions
    only: [exit] does not unwind. *)
#[export] Instance MonadExc_exec {U} : MonadExc exn (exec U) := {
  raise := fun A (e : exn) s => Raise e s;
  catch := fun A (m : exec U A) (h : exn -> exec U A) s =>
    match m s with
    | Ret a s' => Ret a s'
    | Raise e s' => h e s'
    | Halt c s' => Halt c s'
    end
}.

Definition exit {U A} (code : Z) : exec U A := fun s => Halt code s.
Definition gets {U A} (f : state U -> A) : exec U A := fun s => Ret (f s) s.
Definition modify {U} (f : state U -> state U) : exec U unit :=
  fun s => Ret tt (f s).

(** ** Output *)

(** [std::endl] *)
Definition endl : string := String (ascii_of_nat 10) EmptyString.

(** [std::cout << t] *)
Definition print {U} (t : string) : exec U unit :=
  modify (fun s => set_cout (cout s ++ t) s).

(** [operator<<] of the operand types. *)
Class Show (A : Type) : Type := show : A -> string.

#[export] Instance Show_N : Show N :=
  fun n => NilZero.string_of_uint (N.to_uint n).
#[export] Instance Show_Z : Show Z :=
  fun z => NilZero.string_of_int (Z.to_int z).
#[export] Instance Show_string : Show string := fun s => s.
(** without [std::boolalpha] a [bool] prints as 1 or 0 *)
#[export] Instance Show_bool : Show bool :=
  fun b => if b then "1" else "0".


(** ** Macro arguments *)

(** An expression handed to a macro: the macros use both its spelling
    ([UTEST_STRINGIFY]) and its evaluation. *)
Record expr (U A : Type) : Type := Expr {
  text : string;
  eval : exec U A
}.

Arguments Expr {U A} _ _.

(** An expression without side effects. *)
Definition value {U A} (t : string) (a : A) : expr U A := Expr t (ret a).

(** [__FILE__] and [__LINE__] at the place a check macro is expanded. *)
Record location : Type := At {
  file : string;
  line : N
}.

(** The operator token of a relational check and what it computes. *)
Record binop (A B : Type) : Type := BinOp {
  op_text : string;
  op_holds : A -> B -> bool
}.

(** The six comparison operators of an operand type. *)
Class Comparable (A : Type) : Type := {
  cmp_eq : A -> A -> bool;
  cmp_ne : A -> A -> bool;
  cmp_lt : A -> A -> bool;
  cmp_le : A -> A -> bool;
  cmp_gt : A -> A -> bool;
  cmp_ge : A -> A -> bool
}.

(** What [UTEST_EVALUATE_CLOSE] asks of its operands: [std::fabs], [-], [+],
    [*] and the literal [1]. *)
Class Arith (A : Type) : Type := {
  fabs : A -> A;
  minus : A -> A -> A;
  plus : A -> A -> A;
  times : A -> A -> A;
  one : A
}.

#[export] Instance Comparable_Z : Comparable Z := {
  cmp_eq := Z.eqb;
  cmp_ne := fun a b => negb (Z.eqb a b);
  cmp_lt := Z.ltb;
  cmp_le := Z.leb;
  cmp_gt := Z.gtb;
  cmp_ge := Z.geb
}.

(** [double] *)
#[export] Instance Comparable_float : Comparable float := {
  cmp_eq := PrimFloat.eqb;
  cmp_ne := fun a b => negb (PrimFloat.eqb a b);
  cmp_lt := PrimFloat.ltb;
  cmp_le := PrimFloat.leb;
  cmp_gt := fun a b => PrimFloat.ltb b a;
  cmp_ge := fun a b => PrimFloat.leb b a
}.

#[export] Instance Arith_float : Arith float := {
  fabs := PrimFloat.abs;
  minus := PrimFloat.sub;
  plus := PrimFloat.add;
  times := PrimFloat.mul;
  one := 1%float
}.

(** [std::cout << x] for a [double] on a stream in the format [fixed12]: the
    exact value rounded to twelve decimals, ties to even.  That format is in
    force whenever an operand is printed, because [UTEST_HANDLE_FAILURE] sets
    it first in the same statement.  The model of [double] has one NaN,
    printed as the library prints a NaN whose sign bit is clear; for one
    whose sign bit is set the library writes a minus sign in front, which
    the model cannot tell. *)
Definition pad12 (t : string) : string :=
  string_of_list_ascii (repeat "0"%char (12 - String.length t)) ++ t.

Definition show_fixed12 (x : float) : string :=
  match Prim2SF x with
  | S754_zero sgn => (if sgn then "-" else EmptyString) ++ "0.000000000000"
  | S754_infinity sgn => if sgn then "-inf" else "inf"
  | S754_nan => "nan"
  | S754_finite sgn m e =>
      let num := (Z.pos m * 10 ^ 12 * 2 ^ Z.max e 0)%Z in
      let den := (2 ^ Z.max (- e) 0)%Z in
      let q := (num / den)%Z in
      let r := (num mod den)%Z in
      let q' := if (2 * r <? den)%Z then q
                else if (2 * r =? den)%Z then (if Z.even q then q else q + 1)%Z
                else (q + 1)%Z in
      (if sgn then "-" else EmptyString)
        ++ NilZero.string_of_int (Z.to_int (q' / 10 ^ 12))
        ++ "." ++ pad12 (NilZero.string_of_int (Z.to_int (q' mod 10 ^ 12)))
  end.

#[export] Instance Show_float : Show float := show_fixed12.

(** ** The outcome classifier (lines 29-45) *)

Definition check_throw {U} (texception : string) (op : exec U unit)
  : exec U exception_status :=
  catch (op ;; ret none)
        (fun e => if handler_matches texception e
                  then ret expected
                  else ret unexpected).

Arguments check_throw : simpl never.

(** ** Module and case (lines 47-83) *)

(** The statement of [UTEST_BEGIN_MODULE(name)] inside its [try]. *)
Definition UTEST_BEGIN_MODULE {U} (name : string) : exec U unit :=
  modify (set_module_name name).

Definition UTEST_CASE {U} (name : string) : exec U unit :=
  modify (fun s => set_n_cases (size_incr (utest_n_cases s)) s) ;;
  modify (set_case_name name) ;;
  m <- gets utest_module_name ;;
  c <- gets utest_case_name ;;
  print ("running test case [" ++ m ++ "/" ++ c ++ "] ..." ++ endl).

(** Lines 60-71: the statements with which [UTEST_END_MODULE()] ends the
    [try] block. *)
Definition UTEST_END_MODULE {U} : exec U unit :=
  f <- gets utest_n_failures ;;
  n <- gets utest_n_checks ;;
  if 0 <? f then
    print ("  failed with " ++ show f ++ " errors in " ++ show n
           ++ " check" ++ (if 0 <? n then "s" else EmptyString) ++ "!" ++ endl) ;;
    exit EXIT_FAILURE
  else
    print ("  no errors detected in " ++ show n
           ++ " check" ++ (if 0 <? n then "s" else EmptyString) ++ "." ++ endl) ;;
    exit EXIT_SUCCESS.

(** Lines 73-82: the two handlers of that [try] block. *)
Definition UTEST_END_MODULE_catch {U} (e : exn) : exec U unit :=
  if handler_matches "std::exception" e then
    print (" failed with uncaught exception <" ++ exn_what e ++ ">!" ++ endl) ;;
    exit EXIT_FAILURE
  else
    print (" failed with uncaught unknown exception!" ++ endl) ;;
    exit EXIT_FAILURE.

(** [int main(int, char* [])] as [UTEST_BEGIN_MODULE(name)], the cases and
    checks written between the two macros ([body]) and [UTEST_END_MODULE()]
    define it. *)
Definition main {U} (name : string) (body : exec U unit) : exec U unit :=
  catch (UTEST_BEGIN_MODULE name ;; body ;; UTEST_END_MODULE)
        UTEST_END_MODULE_catch.

(** ** Checks (lines 85-206) *)

Definition UTEST_HANDLE_CRITICAL {U} (critical : bool) : exec U unit :=
  if critical then exit EXIT_FAILURE else ret tt.

(** The macro leaves its output statement open; [rest] is what the place of
    use streams after it.  The two manipulators write nothing and set the
    format of the stream, which stays set. *)
Definition UTEST_HANDLE_FAILURE {U} (loc : location) (rest : string)
  : exec U unit :=
  modify (fun s => set_n_failures (size_incr (utest_n_failures s)) s) ;;
  m <- gets utest_module_name ;;
  c <- gets utest_case_name ;;
  modify (set_cout_format fixed12) ;;
  print (file loc ++ ":" ++ show (line loc) ++ ": [" ++ m ++ "/" ++ c ++ rest).

(** [++ utest_n_checks;] *)
Definition count_check {U} : exec U unit :=
  modify (fun s => set_n_checks (size_incr (utest_n_checks s)) s).

Definition UTEST_EVALUATE {U} (loc : location) (check : expr U bool)
    (critical : bool) : exec U unit :=
  count_check ;;
  b <- eval check ;;
  if negb b then
    UTEST_HANDLE_FAILURE loc ("]: check {" ++ text check ++ "} failed!" ++ endl) ;;
    UTEST_HANDLE_CRITICAL critical
  else ret tt.

Definition UTEST_CHECK {U} loc (check : expr U bool) :=
  UTEST_EVALUATE loc check false.
Definition UTEST_REQUIRE {U} loc (check : expr U bool) :=
  UTEST_EVALUATE loc check true.

(** In the [switch], [case none] has no [break]: it runs on into
    [case expected], which is only a [break]. *)
Definition UTEST_THROW {U A} (loc : location) (call : expr U A)
    (exception : string) (critical : bool) : exec U unit :=
  count_check ;;
  st <- check_throw exception (eval call ;; ret tt) ;;
  match st with
  | none =>
      UTEST_HANDLE_FAILURE loc
        ("]: call {" ++ text call ++ "} does not throw!" ++ endl) ;;
      UTEST_HANDLE_CRITICAL critical ;;
      ret tt
  | expected => ret tt
  | unexpected =>
      UTEST_HANDLE_FAILURE loc
        ("]: call {" ++ text call ++ "} does not throw {" ++ exception
         ++ "}!" ++ endl) ;;
      UTEST_HANDLE_CRITICAL critical
  end.

Definition UTEST_CHECK_THROW {U A} loc (call : expr U A) exception :=
  UTEST_THROW loc call exception false.
Definition UTEST_REQUIRE_THROW {U A} loc (call : expr U A) exception :=
  UTEST_THROW loc call exception true.

Definition UTEST_NOTHROW {U A} (loc : location) (call : expr U A)
    (critical : bool) : exec U unit :=
  count_check ;;
  st <- check_throw "std::exception" (eval call ;; ret tt) ;;
  match st with
  | none => ret tt
  | expected | unexpected =>
      UTEST_HANDLE_FAILURE loc
        ("]: call {" ++ text call ++ "} throws!" ++ endl) ;;
      UTEST_HANDLE_CRITICAL critical
  end.

Definition UTEST_CHECK_NOTHROW {U A} loc (call : expr U A) :=
  UTEST_NOTHROW loc call false.
Definition UTEST_REQUIRE_NOTHROW {U A} loc (call : expr U A) :=
  UTEST_NOTHROW loc call true.

Definition UTEST_EVALUATE_BINARY_OP {U A B} `{Show A} `{Show B}
    (loc : location) (left : expr U A) (right : expr U B) (op : binop A B)
    (critical : bool) : exec U unit :=
  count_check ;;
  res_left <- eval left ;;
  res_right <- eval right ;;
  if negb (op_holds op res_left res_right) then
    UTEST_HANDLE_FAILURE loc
      ("]: check {" ++ text left ++ " " ++ op_text op ++ " " ++ text right
       ++ "} failed {" ++ show res_left ++ " " ++ op_text op ++ " "
       ++ show res_right ++ "}!" ++ endl) ;;
    UTEST_HANDLE_CRITICAL critical
  else ret tt.

Definition UTEST_EVALUATE_EQUAL {U A} `{Show A} `{Comparable A}
    loc (left right : expr U A) critical :=
  UTEST_EVALUATE_BINARY_OP loc left right (BinOp "==" cmp_eq) critical.
Definition UTEST_CHECK_EQUAL {U A} `{Show A} `{Comparable A}
    loc (left right : expr U A) :=
  UTEST_EVALUATE_EQUAL loc left right false.
Definition UTEST_REQUIRE_EQUAL {U A} `{Show A} `{Comparable A}
    loc (left right : expr U A) :=
  UTEST_EVALUATE_EQUAL loc left right true.

Definition UTEST_EVALUATE_NOT_EQUAL {U A} `{Show A} `{Comparable A}
    loc (left right : expr U A) critical :=
  UTEST_EVALUATE_BINARY_OP loc left right (BinOp "!=" cmp_ne) critical.
Definition UTEST_CHECK_NOT_EQUAL {U A} `{Show A} `{Comparable A}
    loc (left right : expr U A) :=
  UTEST_EVALUATE_NOT_EQUAL loc left right false.
Definition UTEST_REQUIRE_NOT_EQUAL {U A} `{Show A} `{Comparable A}
    loc (left right : expr U A) :=
  UTEST_EVALUATE_NOT_EQUAL loc left right true.

Definition UTEST_EVALUATE_LESS {U A} `{Show A} `{Comparable A}
    loc (left right : expr U A) critical :=
  UTEST_EVALUATE_BINARY_OP loc left right (BinOp "<" cmp_lt) critical.
Definition UTEST_CHECK_LESS {U A} `{Show A} `{Comparable A}
    loc (left right : expr U A) :=
  UTEST_EVALUATE_LESS loc left right false.
Definition UTEST_REQUIRE_LESS {U A} `{Show A} `{Comparable A}
    loc (left right : expr U A) :=
  UTEST_EVALUATE_LESS loc left right true.

Definition UTEST_EVALUATE_LESS_EQUAL {U A} `{Show A} `{Comparable A}
    loc (left right : expr U A) critical :=
  UTEST_EVALUATE_BINARY_OP loc left right (BinOp "<=" cmp_le) critical.
Definition UTEST_CHECK_LESS_EQUAL {U A} `{Show A} `{Comparable A}
    loc (left right : expr U A) :=
  UTEST_EVALUATE_LESS_EQUAL loc left right false.
Definition UTEST_REQUIRE_LESS_EQUAL {U A} `{Show A} `{Comparable A}
    loc (left right : expr U A) :=
  UTEST_EVALUATE_LESS_EQUAL loc left right true.

Definition UTEST_EVALUATE_GREATER {U A} `{Show A} `{Comparable A}
    loc (left right : expr U A) critical :=
  UTEST_EVALUATE_BINARY_OP loc left right (BinOp ">" cmp_gt) critical.
Definition UTEST_CHECK_GREATER {U A} `{Show A} `{Comparable A}
    loc (left right : expr U A) :=
  UTEST_EVALUATE_GREATER loc left right false.
Definition UTEST_REQUIRE_GREATER {U A} `{Show A} `{Comparable A}
    loc (left right : expr U A) :=
  UTEST_EVALUATE_GREATER loc left right true.

Definition UTEST_EVALUATE_GREATER_EQUAL {U A} `{Show A} `{Comparable A}
    loc (left right : expr U A) critical :=
  UTEST_EVALUATE_BINARY_OP loc left right (BinOp ">=" cmp_ge) critical.
Definition UTEST_CHECK_GREATER_EQUAL {U A} `{Show A} `{Comparable A}
    loc (left right : expr U A) :=
  UTEST_EVALUATE_GREATER_EQUAL loc left right false.
Definition UTEST_REQUIRE_GREATER_EQUAL {U A} `{Show A} `{Comparable A}
    loc (left right : expr U A) :=
  UTEST_EVALUATE_GREATER_EQUAL loc left right true.

(** *** What the compiler makes of line 202 *)

(** C++ leaves open which operand of a binary operator is evaluated first.
    For the operators of lines 202, 211 and 212 that have macro arguments in
    both operands the choice of the compiler is a parameter of the model. *)
Inductive order : Set :=
| left_first
| right_first.

Class Compiler : Type := {
  order_of_difference : order;  (* [(left) - (right)] *)
  order_of_sum : order;         (* [1 + |left|] and [|right|] *)
  order_of_product : order;     (* what stands before [*] and the parenthesis *)
  order_of_tolerance : order    (* the operator at the top of [epsilon] *)
}.

(** Both operands of a binary operator, evaluated in the order [o]. *)
Definition both {U A B} (o : order) (l : exec U A) (r : exec U B)
  : exec U (A * B) :=
  match o with
  | left_first => a <- l ;; b <- r ;; ret (a, b)
  | right_first => b <- r ;; a <- l ;; ret (a, b)
  end.

(** [epsilon] is the one argument the header writes without parentheses.
    In [epsilon * (...)] the product therefore takes the whole of [epsilon]
    only when [epsilon] binds at least as tightly as [*] (a name, a literal,
    a call, a parenthesised, unary or multiplicative expression); of
    [a + b] and [a - b] it takes [b], and of [c ? a : b] it takes what it
    takes of [b].  The other operators that bind less tightly than [*]
    (shifts, comparisons, logical operators, assignments) are not
    represented. *)
Inductive spliced (U A : Type) : Type :=
| tol_operand (e : exec U A)
| tol_sum (a b : exec U A)
| tol_difference (a b : exec U A)
| tol_conditional (c : exec U bool) (a : exec U A) (b : spliced U A).

Arguments tol_operand {U A} _.
Arguments tol_sum {U A} _ _.
Arguments tol_difference {U A} _ _.
Arguments tol_conditional {U A} _ _ _.

(** The argument [epsilon]: its spelling and how it parses. *)
Record tolerance (U A : Type) : Type := Tolerance {
  tol_text : string;
  tol_parse : spliced U A
}.

Arguments Tolerance {U A} _ _.

(** An [epsilon] that binds at least as tightly as [*]. *)
Definition plain {U A} (e : expr U A) : tolerance U A :=
  Tolerance (text e) (tol_operand (eval e)).

(** [epsilon * (scale)] as it parses. *)
Fixpoint splice {U A} `{Arith A} `{C : Compiler} (t : spliced U A)
    (scale : exec U A) : exec U A :=
  match t with
  | tol_operand e =>
      p <- both order_of_product e scale ;;
      ret (times (fst p) (snd p))
  | tol_sum a b =>
      p <- both order_of_tolerance a
                (q <- both order_of_product b scale ;;
                 ret (times (fst q) (snd q))) ;;
      ret (plus (fst p) (snd p))
  | tol_difference a b =>
      p <- both order_of_tolerance a
                (q <- both order_of_product b scale ;;
                 ret (times (fst q) (snd q))) ;;
      ret (minus (fst p) (snd p))
  | tol_conditional c a b =>
      v <- c ;;
      if v : bool then a else splice b scale
  end.

(** The two arguments [UTEST_EVALUATE_CLOSE] hands to [UTEST_EVALUATE_LESS]
    (line 202).  The macro parameters [left] and [right] are spelled in both,
    so each stands for its own evaluation of the operand. *)
Definition close_distance {U A} `{Arith A} `{C : Compiler}
    (left right : expr U A) : expr U A :=
  Expr ("std::fabs((" ++ text left ++ ") - (" ++ text right ++ "))")
       (p <- both order_of_difference (eval left) (eval right) ;;
        ret (fabs (minus (fst p) (snd p)))).

(** [1 + std::fabs((left)) + std::fabs((right))] *)
Definition close_scale {U A} `{Arith A} `{C : Compiler}
    (left right : expr U A) : exec U A :=
  p <- both order_of_sum (eval left) (eval right) ;;
  ret (plus (plus one (fabs (fst p))) (fabs (snd p))).

Definition close_bound {U A} `{Arith A} `{C : Compiler}
    (left right : expr U A) (epsilon : tolerance U A) : expr U A :=
  Expr (tol_text epsilon ++ " * (1 + std::fabs((" ++ text left
        ++ ")) + std::fabs((" ++ text right ++ ")))")
       (splice (tol_parse epsilon) (close_scale left right)).

Definition UTEST_EVALUATE_CLOSE {U A} `{Show A} `{Comparable A} `{Arith A}
    `{C : Compiler} loc (left right : expr U A) (epsilon : tolerance U A)
    critical :=
  UTEST_EVALUATE_LESS loc (close_distance left right)
                      (close_bound left right epsilon) critical.
Definition UTEST_CHECK_CLOSE {U A} `{Show A} `{Comparable A} `{Arith A}
    `{C : Compiler} loc (left right : expr U A) (epsilon : tolerance U A) :=
  UTEST_EVALUATE_CLOSE loc left right epsilon false.
Definition UTEST_REQUIRE_CLOSE {U A} `{Show A} `{Comparable A} `{Arith A}
    `{C : Compiler} loc (left right : expr U A) (epsilon : tolerance U A) :=
  UTEST_EVALUATE_CLOSE loc left right epsilon true.

(** ** Vocabulary of the statements *)

(** The state [++ utest_n_checks] leaves. *)
Definition after_count {U} (s : state U) : state U :=
  set_n_checks (size_incr (utest_n_checks s)) s.

(** The line a failing check writes, and the state [UTEST_HANDLE_FAILURE]
    followed by [rest] leaves. *)
Definition diagnostic {U} (loc : location) (rest : string) (s : state U)
  : string :=
  file loc ++ ":" ++ show (line loc) ++ ": [" ++ utest_module_name s ++ "/"
    ++ utest_case_name s ++ rest.

Definition failed {U} (loc : location) (rest : string) (s : state U)
  : state U :=
  set_cout (cout s ++ diagnostic loc rest s)
           (set_cout_format fixed12
              (set_n_failures (size_incr (utest_n_failures s)) s)).

(** How a recorded failure goes on: the process ends there when the check
    is critical, the next statement runs otherwise. *)
Definition after_failure {U} (critical : bool) (s : state U)
  : result U unit :=
  if critical then Halt EXIT_FAILURE s else Ret tt s.

(** The status with which the process ended, if it ended. *)
Definition exit_code {U A} (r : result U A) : option Z :=
  match r with
  | Halt c _ => Some c
  | _ => None
  end.

(** The verdict in the spec's words:
    [checks_failed == 0 ? SUCCESS : FAILURE]. *)
Definition spec_verdict (checks_failed : N) : Z :=
  if checks_failed =? 0 then EXIT_SUCCESS else EXIT_FAILURE.

(** The summary line in the spec's words: "no errors detected in N check(s)."
    or "failed with F errors in N check(s)!", where "check(s)" is "check" for
    exactly one check and "checks" otherwise. *)
Definition spec_plural (n : N) : string :=
  if n =? 1 then "check" else "checks".

Definition spec_summary (f n : N) : string :=
  if f =? 0
  then "no errors detected in " ++ show n ++ " " ++ spec_plural n ++ "."
  else "failed with " ++ show f ++ " errors in " ++ show n ++ " "
         ++ spec_plural n ++ "!".

(** The line lines 60-71 write. *)
Definition summary {U} (s : state U) : string :=
  if 0 <? utest_n_failures s
  then "  failed with " ++ show (utest_n_failures s) ++ " errors in "
         ++ show (utest_n_checks s) ++ " check"
         ++ (if 0 <? utest_n_checks s then "s" else EmptyString) ++ "!" ++ endl
  else "  no errors detected in " ++ show (utest_n_checks s) ++ " check"
         ++ (if 0 <? utest_n_checks s then "s" else EmptyString) ++ "." ++ endl.

(** The line the handlers of lines 73-82 write for an escaped failure. *)
Definition uncaught_report (e : exn) : string :=
  if handler_matches "std::exception" e
  then " failed with uncaught exception <" ++ exn_what e ++ ">!" ++ endl
  else " failed with uncaught unknown exception!" ++ endl.

(** [t] occurs in [s]. *)
Definition occurs_in (t s : string) : Prop :=
  exists pre post, s = pre ++ t ++ post.

Fixpoint occursb (t s : string) : bool :=
  String.prefix t s
  || match s with
     | EmptyString => false
     | String _ s' => occursb t s'
     end.

(** [checked m loc critical s s' passed rest]: [m] is one use of a check
    macro at [loc]; started in [s] it has counted itself and evaluated its
    operands (or classified its call), which left state [s'] and decided the
    check ([passed]); [rest] is the message it streams if it failed.  The six
    relational macros and [UTEST_EVALUATE_CLOSE] are uses of
    [UTEST_EVALUATE_BINARY_OP] by their definitions. *)
Inductive checked {U} :
  exec U unit -> location -> bool -> state U -> state U -> bool -> string
  -> Prop :=
| checked_boolean loc (check : expr U bool) critical s s' b :
    eval check (after_count s) = Ret b s' ->
    checked (UTEST_EVALUATE loc check critical) loc critical s s' b
            ("]: check {" ++ text check ++ "} failed!" ++ endl)
| checked_relational A B (SA : Show A) (SB : Show B) loc
    (left : expr U A) (right : expr U B) op critical s s1 s' a b :
    eval left (after_count s) = Ret a s1 ->
    eval right s1 = Ret b s' ->
    checked (UTEST_EVALUATE_BINARY_OP loc left right op critical)
            loc critical s s' (op_holds op a b)
            ("]: check {" ++ text left ++ " " ++ op_text op ++ " "
             ++ text right ++ "} failed {" ++ show a ++ " " ++ op_text op
             ++ " " ++ show b ++ "}!" ++ endl)
| checked_throw A loc (call : expr U A) exception critical s s' st :
    check_throw exception (eval call ;; ret tt) (after_count s) = Ret st s' ->
    checked (UTEST_THROW loc call exception critical) loc critical s s'
            (match st with expected => true | _ => false end)
            (match st with
             | unexpected => "]: call {" ++ text call ++ "} does not throw {"
                               ++ exception ++ "}!" ++ endl
             | _ => "]: call {" ++ text call ++ "} does not throw!" ++ endl
             end)
| checked_nothrow A loc (call : expr U A) critical s s' st :
    check_throw "std::exception" (eval call ;; ret tt) (after_count s)
      = Ret st s' ->
    checked (UTEST_NOTHROW loc call critical) loc critical s s'
            (match st with none => true | _ => false end)
            ("]: call {" ++ text call ++ "} throws!" ++ endl).

(** Both check counters agree in two states. *)
Definition same_counters {U} (s1 s2 : state U) : Prop :=
  utest_n_checks s1 = utest_n_checks s2
  /\ utest_n_failures s1 = utest_n_failures s2.

(** The invariant of the run counters in the spec's words. *)
Definition counters_ok {U} (s : state U) : Prop :=
  utest_n_failures s <= utest_n_checks s.

(** A statement of a module body as far as the counters go: from every state
    it is either a check whose operands return and leave the counters alone,
    or something else that leaves them alone ([UTEST_CASE], code under
    test). *)
Definition counted_step {U} (m : exec U unit) : Prop :=
  forall s,
    (exists loc critical s' passed rest,
        checked m loc critical s s' passed rest
        /\ same_counters (after_count s) s')
    \/ (same_counters s (final (m s))).

(** Statements one after the other. *)
Fixpoint sequence {U} (ms : list (exec U unit)) : exec U unit :=
  match ms with
  | [] => ret tt
  | m :: ms' => m ;; sequence ms'
  end.

(** [k] times the same statement. *)
Definition times_over {U} (k : N) (m : exec U unit) : exec U unit :=
  N.iter k (fun rest => m ;; rest) (ret tt).

Arguments times_over : simpl never.

(** ** Code under test for the examples *)

(** A call that counts itself in the first ([snd_counter = false]) or the
    second component of the state of the code under test, as
    [(++calls, v)] would, and yields [v]. *)
Definition counting_call {A} (t : string) (snd_counter : bool) (v : A)
  : expr (nat * nat) A :=
  Expr t (fun s =>
            Ret v (set_user (if snd_counter
                             then (fst (user s), S (snd (user s)))
                             else (S (fst (user s)), snd (user s))) s)).

(** [throw std::runtime_error(what)], [throw std::string(what)] and
    [throw 42]. *)
Definition throw_runtime_error {U} (what : string) : exec U unit :=
  raise (Thrown ["std::runtime_error"; "std::exception"] what).
Definition throw_string {U} (what : string) : exec U unit :=
  raise (Thrown ["std::string"] what).
Definition throw_int {U} : exec U unit :=
  raise (Thrown ["int"] EmptyString).

(** ** The optional checks on Eigen values (lines 208-217) *)

(** What [UTEST_EVALUATE_EIGEN_CLOSE] asks of its operands, which are
    vectors or matrices of Eigen, a library outside the header: [x.size()],
    [(x - y).array().abs().maxCoeff()] and [x.array().abs().maxCoeff()].
    Eigen's own assertions (a difference of operands of different sizes, the
    largest coefficient of an empty operand) are not part of the
    interface. *)
Class EigenLike (V A : Type) : Type := {
  eigen_size : V -> Z;
  eigen_max_abs_diff : V -> V -> A;
  eigen_max_abs : V -> A
}.

(** The operands the macro builds for its two checks, each with its own
    evaluations of [left] and [right]; the order inside one operand and the
    parse of [epsilon] are as in [close_distance] and [close_bound]. *)
Definition eigen_size_of {U V A} `{EigenLike V A} (x : expr U V) : expr U Z :=
  Expr ("(" ++ text x ++ ").size()")
       (v <- eval x ;;
        ret (eigen_size v)).

Definition eigen_distance {U V A} `{EigenLike V A} `{C : Compiler}
    (left right : expr U V) : expr U A :=
  Expr ("(((" ++ text left ++ ") - (" ++ text right
        ++ ")).array().abs().maxCoeff())")
       (p <- both order_of_difference (eval left) (eval right) ;;
        ret (eigen_max_abs_diff (fst p) (snd p))).

(** [1 + (left).array().abs().maxCoeff() + (right).array().abs().maxCoeff()] *)
Definition eigen_scale {U V A} `{EigenLike V A} `{Arith A} `{C : Compiler}
    (left right : expr U V) : exec U A :=
  p <- both order_of_sum (eval left) (eval right) ;;
  ret (plus (plus one (eigen_max_abs (fst p))) (eigen_max_abs (snd p))).

Definition eigen_bound {U V A} `{EigenLike V A} `{Arith A} `{C : Compiler}
    (left right : expr U V) (epsilon : tolerance U A) : expr U A :=
  Expr (tol_text epsilon ++ " * (1 + (" ++ text left
        ++ ").array().abs().maxCoeff() + (" ++ text right
        ++ ").array().abs().maxCoeff())")
       (splice (tol_parse epsilon) (eigen_scale left right)).

Definition UTEST_EVALUATE_EIGEN_CLOSE {U V A} `{EigenLike V A} `{Show A}
    `{Comparable A} `{Arith A} `{C : Compiler} loc (left right : expr U V)
    (epsilon : tolerance U A) (critical : bool) : exec U unit :=
  UTEST_REQUIRE_EQUAL loc (eigen_size_of left) (eigen_size_of right) ;;
  UTEST_EVALUATE_LESS loc (eigen_distance left right)
                      (eigen_bound left right epsilon) critical.
Definition UTEST_CHECK_EIGEN_CLOSE {U V A} `{EigenLike V A} `{Show A}
    `{Comparable A} `{Arith A} `{C : Compiler} loc (left right : expr U V)
    (epsilon : tolerance U A) :=
  UTEST_EVALUATE_EIGEN_CLOSE loc left right epsilon false.
Definition UTEST_REQUIRE_EIGEN_CLOSE {U V A} `{EigenLike V A} `{Show A}
    `{Comparable A} `{Arith A} `{C : Compiler} loc (left right : expr U V)
    (epsilon : tolerance U A) :=
  UTEST_EVALUATE_EIGEN_CLOSE loc left right epsilon true.

(** Vectors of doubles as lists, for the examples: the largest absolute
    coefficient of a vector that is not empty and holds no NaN. *)
Definition vec_max_abs (v : list float) : float :=
  fold_right (fun x m => if (m <? abs x)%float then abs x else m) 0%float v.

#[export] Instance EigenLike_list : EigenLike (list float) float := {
  eigen_size := fun v => Z.of_nat (length v);
  eigen_max_abs_diff := fun l r =>
    vec_max_abs (map (fun p => (fst p - snd p)%float) (combine l r));
  eigen_max_abs := vec_max_abs
}.

(** [m] always returns, and with it the observer [n] of the code under
    test advances by [k]. *)
Definition ticks {U A} (n : U -> nat) (k : nat) (m : exec U A) : Prop :=
  forall s, exists a s', m s = Ret a s' /\ n (user s') = (k + n (user s))%nat.

(** Two compilers for the examples: all operands left to right, and all
    right to left. *)
Definition left_to_right : Compiler :=
  Build_Compiler left_first left_first left_first left_first.
Definition right_to_left : Compiler :=
  Build_Compiler right_first right_first right_first right_first.

(** * Properties *)

(** ** Counters *)

Lemma size_modulus : 2 ^ SIZE_WIDTH = 18446744073709551616.
Proof. reflexivity. Qed.

Lemma size_incr_small (n : N) : n < SIZE_MAX -> size_incr n = n + 1.
Proof.
  unfold size_incr, SIZE_MAX. rewrite size_modulus. intros Hn.
  apply N.mod_small. lia.
Qed.

Lemma size_incr_max : size_incr SIZE_MAX = 0.
Proof. reflexivity. Qed.

Lemma size_incr_neq (n : N) : size_incr n <> n.
Proof.
  unfold size_incr. rewrite size_modulus. intros E.
  pose proof (N.div_mod (n + 1) 18446744073709551616) as D.
  rewrite E in D. lia.
Qed.

(** ** Strings *)

Lemma append_assoc (a b c : string) : (a ++ b) ++ c = a ++ (b ++ c).
Proof. induction a as [|ch a IH]; cbn; [reflexivity | now rewrite IH]. Qed.

Lemma append_inv_head (a b c : string) : a ++ b = a ++ c -> b = c.
Proof.
  induction a as [|ch a IH]; cbn; intros E; [assumption|].
  apply IH. now injection E.
Qed.

Lemma prefix_append (t post : string) : String.prefix t (t ++ post) = true.
Proof.
  induction t as [|ch t IH]; cbn; [now destruct post|].
  destruct (ascii_dec ch ch); [exact IH | contradiction].
Qed.

Lemma occursb_complete (t s : string) : occurs_in t s -> occursb t s = true.
Proof.
  intros (pre & post & ->).
  induction pre as [|ch pre IH]; cbn [append].
  - destruct (t ++ post) eqn:E; cbn [occursb];
      rewrite <- E, prefix_append; reflexivity.
  - cbn [occursb]. rewrite IH. apply orb_true_r.
Qed.

(** ** Running the building blocks *)

Lemma count_check_run {U} (s : state U) : count_check s = Ret tt (after_count s).
Proof. reflexivity. Qed.

Lemma handle_failure_run {U} loc rest critical (s : state U) :
  (UTEST_HANDLE_FAILURE loc rest ;; UTEST_HANDLE_CRITICAL critical) s
  = after_failure critical (failed loc rest s).
Proof. destruct critical; reflexivity. Qed.

Lemma after_failure_final {U} critical (s : state U) :
  final (after_failure critical s) = s.
Proof. destruct critical; reflexivity. Qed.

(** Whatever the macro, a check ends in one of two ways. *)
Lemma checked_run {U} (m : exec U unit) loc critical s s' passed rest :
  checked m loc critical s s' passed rest ->
  m s = if passed then Ret tt s' else after_failure critical (failed loc rest s').
Proof.
  intros H. destruct H as
    [ loc check critical s s' b Hc
    | A B SA SB loc left right op critical s s1 s' a b Hl Hr
    | A loc call exception critical s s' st Hc
    | A loc call critical s s' st Hc ].
  - unfold UTEST_EVALUATE. cbn. unfold after_count in Hc. rewrite Hc.
    destruct b, critical; reflexivity.
  - unfold UTEST_EVALUATE_BINARY_OP. cbn. unfold after_count in Hl.
    rewrite Hl, Hr. destruct (op_holds op a b), critical; reflexivity.
  - unfold UTEST_THROW. cbn. unfold after_count in Hc. cbn in Hc. rewrite Hc.
    destruct st, critical; reflexivity.
  - unfold UTEST_NOTHROW. cbn. unfold after_count in Hc. cbn in Hc. rewrite Hc.
    destruct st, critical; reflexivity.
Qed.

Lemma end_module_run {U} (s : state U) :
  UTEST_END_MODULE s
  = Halt (if 0 <? utest_n_failures s then EXIT_FAILURE else EXIT_SUCCESS)
         (set_cout (cout s ++ summary s) s).
Proof.
  unfold UTEST_END_MODULE, summary. cbn.
  destruct (0 <? utest_n_failures s); reflexivity.
Qed.

Lemma main_run {U} name (body : exec U unit) (s : state U) :
  main name body s
  = match (UTEST_BEGIN_MODULE name ;; body) s with
    | Ret _ s' => UTEST_END_MODULE s'
    | Raise e s' => Halt EXIT_FAILURE (set_cout (cout s' ++ uncaught_report e) s')
    | Halt c s' => Halt c s'
    end.
Proof.
  unfold main, uncaught_report, UTEST_BEGIN_MODULE, modify.
  unfold catch, MonadExc_exec, bind, Monad_exec.
  destruct (body (set_module_name name s)) as [[] s' | e s' | c s'].
  - rewrite end_module_run. reflexivity.
  - unfold UTEST_END_MODULE_catch.
    destruct (handler_matches "std::exception" e); reflexivity.
  - reflexivity.
Qed.

Lemma verdict_agrees (f : N) :
  (if 0 <? f then EXIT_FAILURE else EXIT_SUCCESS) = spec_verdict f.
Proof.
  unfold spec_verdict.
  destruct (N.ltb_spec 0 f), (N.eqb_spec f 0); try reflexivity; lia.
Qed.

Lemma occurs_in_middle (a t b : string) : occurs_in t (a ++ t ++ b).
Proof. exists a, b. reflexivity. Qed.

(** ** The module boundary *)

(** C1. When the body of the module does not leave the process itself, the
    process ends with one of the two statuses; the status is SUCCESS exactly
    when the body ran to the module end without an escaping failure and
    [utest_n_failures] is 0 there, and it is the spec's verdict, a function
    of [utest_n_failures] alone, which the module end leaves as it read it. *)
Theorem module_end_verdict {U} name (body : exec U unit) (s : state U) :
  (forall c s', (UTEST_BEGIN_MODULE name ;; body) s <> Halt c s') ->
  exists code sf,
    main name body s = Halt code sf
    /\ (code = EXIT_SUCCESS \/ code = EXIT_FAILURE)
    /\ (code = EXIT_SUCCESS <->
        exists s', (UTEST_BEGIN_MODULE name ;; body) s = Ret tt s'
                   /\ utest_n_failures s' = 0)
    /\ (forall s', (UTEST_BEGIN_MODULE name ;; body) s = Ret tt s' ->
        code = spec_verdict (utest_n_failures s')
        /\ utest_n_failures sf = utest_n_failures s'
        /\ utest_n_checks sf = utest_n_checks s').
Proof.
  intros Hrun. rewrite main_run.
  destruct ((UTEST_BEGIN_MODULE name ;; body) s) as [[] s' | e s' | c s'] eqn:E.
  - rewrite end_module_run, verdict_agrees.
    eexists _, _. split; [reflexivity|].
    unfold spec_verdict.
    destruct (N.eqb_spec (utest_n_failures s') 0) as [Z0 | NZ].
    + split; [left; reflexivity|]. split.
      * split; [intros _; exists s'; auto | reflexivity].
      * intros s2 [= <-]. rewrite Z0. auto.
    + split; [right; reflexivity|]. split.
      * split; [discriminate|].
        intros (s2 & [= <-] & Z0). contradiction.
      * intros s2 [= <-].
        destruct (N.eqb_spec (utest_n_failures s') 0); [contradiction|auto].
  - eexists _, _. split; [reflexivity|].
    split; [right; reflexivity|]. split.
    + split; [discriminate|]. intros (s2 & [=] & _).
    + intros s2 [=].
  - exfalso. exact (Hrun c s' eq_refl).
Qed.

(** C7, as the code has it.  A failure that escapes the body of the module
    is caught by the handlers of [UTEST_END_MODULE]: the process ends with
    FAILURE after one more line of output, which carries the description for
    a failure derived from [std::exception] and is the fixed notice of an
    unknown exception for any other; and [main] lets no exception out,
    whatever its body does. *)
Theorem uncaught_failure_handled {U} name (body : exec U unit) (s : state U)
    e s' :
  (UTEST_BEGIN_MODULE name ;; body) s = Raise e s' ->
  main name body s
    = Halt EXIT_FAILURE (set_cout (cout s' ++ uncaught_report e) s')
  /\ (handler_matches "std::exception" e = true ->
      occurs_in (exn_what e) (uncaught_report e))
  /\ (handler_matches "std::exception" e = false ->
      uncaught_report e = " failed with uncaught unknown exception!" ++ endl)
  /\ (forall name' (body' : exec U unit) s0 e' s'',
      main name' body' s0 <> Raise e' s'').
Proof.
  intros E. repeat split.
  - rewrite main_run, E. reflexivity.
  - intros M. unfold uncaught_report. rewrite M.
    apply occurs_in_middle.
  - intros M. unfold uncaught_report. rewrite M. reflexivity.
  - intros name' body' s0 e' s''. rewrite main_run.
    destruct ((UTEST_BEGIN_MODULE name' ;; body') s0) as [[] s1 | e1 s1 | c1 s1].
    + rewrite end_module_run. discriminate.
    + discriminate.
    + discriminate.
Qed.

(** C7 as the spec has it fails for a failure that is not a
    [std::exception]: a string thrown out of the body ends the process with
    FAILURE, and what is written is the notice of an unknown exception, in
    which the description the string carries does not occur. *)
Lemma uncaught_string_not_described :
  let run := main "m" (throw_string "disk full") (initial tt) in
  exit_code run = Some EXIT_FAILURE
  /\ cout (final run) = " failed with uncaught unknown exception!" ++ endl
  /\ ~ occurs_in "disk full" (cout (final run)).
Proof.
  split; [reflexivity|]. split; [reflexivity|].
  intros H. apply occursb_complete in H. vm_compute in H. discriminate H.
Qed.

(** On the path through the module end the summary is the last thing
    written, once. *)
Lemma summary_written_once {U} name (body : exec U unit) (s s' : state U) :
  (UTEST_BEGIN_MODULE name ;; body) s = Ret tt s' ->
  cout (final (main name body s)) = cout s' ++ summary s'.
Proof.
  intros E. rewrite main_run, E, end_module_run. reflexivity.
Qed.

(** From two checks on the line the code writes is the line of the spec. *)
Lemma summary_plural_from_two {U} (s : state U) :
  2 <= utest_n_checks s ->
  summary s
  = "  " ++ spec_summary (utest_n_failures s) (utest_n_checks s) ++ endl.
Proof.
  intros H2. unfold summary, spec_summary, spec_plural.
  assert (P : (0 <? utest_n_checks s) = true) by (apply N.ltb_lt; lia).
  assert (Q : (utest_n_checks s =? 1) = false) by (apply N.eqb_neq; lia).
  rewrite P, Q.
  destruct (N.eqb_spec (utest_n_failures s) 0) as [Z0 | NZ].
  - rewrite Z0. repeat first [rewrite !append_assoc | progress cbn]. reflexivity.
  - assert (R : (0 <? utest_n_failures s) = true) by (apply N.ltb_lt; lia).
    rewrite R. repeat first [rewrite !append_assoc | progress cbn]. reflexivity.
Qed.

(** C8. A module whose one check passes ends with "1 checks", and one whose
    one check fails with "1 checks" as well, where the spec's line has
    "1 check": the test [utest_n_checks > 0] of lines 63 and 69 takes the
    plural from one check on (and the singular for none). *)
Theorem summary_of_one_check :
  let L := At "test.cpp" 7 in
  let pass := main "m" (UTEST_CHECK L (value "true" true)) (initial tt) in
  let fail := main "m" (UTEST_CHECK L (value "false" false)) (initial tt) in
  exit_code pass = Some EXIT_SUCCESS
  /\ cout (final pass) = "  no errors detected in 1 checks." ++ endl
  /\ spec_summary 0 1 = "no errors detected in 1 check."
  /\ ~ occurs_in (spec_summary 0 1) (cout (final pass))
  /\ exit_code fail = Some EXIT_FAILURE
  /\ cout (final fail)
     = "test.cpp:7: [m/]: check {false} failed!" ++ endl
       ++ "  failed with 1 errors in 1 checks!" ++ endl
  /\ spec_summary 1 1 = "failed with 1 errors in 1 check!"
  /\ ~ occurs_in (spec_summary 1 1) (cout (final fail)).
Proof.
  repeat split;
    intros H; apply occursb_complete in H; vm_compute in H; discriminate H.
Qed.

(** ** The outcome classifier *)

Lemma check_throw_run {U} texception (op : exec U unit) (s : state U) :
  check_throw texception op s
  = match op s with
    | Ret _ s' => Ret none s'
    | Raise e s' =>
        Ret (if handler_matches texception e then expected else unexpected) s'
    | Halt c s' => Halt c s'
    end.
Proof.
  unfold check_throw. cbn.
  destruct (op s) as [[] s' | e s' | c s']; try reflexivity.
  destruct (handler_matches texception e); reflexivity.
Qed.

(** C4. [check_throw] runs the work once and adds nothing to what the work
    did: the state it leaves is the state one run of the work leaves, so an
    observer that every run of the work advances by one stands one higher
    afterwards.  Its value is [none] when the work returns, [expected] when
    the work throws what the designated handler binds, [unexpected] when it
    throws anything else; and no exception leaves [check_throw]. *)
Theorem check_throw_classifies {U} texception (op : exec U unit)
    (s : state U) :
  final (check_throw texception op s) = final (op s)
  /\ (forall calls : state U -> nat,
      (forall s0, calls (final (op s0)) = S (calls s0)) ->
      calls (final (check_throw texception op s)) = S (calls s))
  /\ (forall e s', check_throw texception op s <> Raise e s')
  /\ (forall s', op s = Ret tt s' ->
      check_throw texception op s = Ret none s')
  /\ (forall e s', op s = Raise e s' ->
      handler_matches texception e = true ->
      check_throw texception op s = Ret expected s')
  /\ (forall e s', op s = Raise e s' ->
      handler_matches texception e = false ->
      check_throw texception op s = Ret unexpected s').
Proof.
  assert (F : final (check_throw texception op s) = final (op s)).
  { rewrite check_throw_run. destruct (op s); reflexivity. }
  split; [exact F|].
  split; [intros calls Hop; rewrite F; apply Hop|].
  rewrite check_throw_run.
  destruct (op s) as [[] s1 | e1 s1 | c1 s1] eqn:E; cbn.
  - repeat split; try discriminate. intros s' [= <-]. reflexivity.
  - repeat split; try discriminate.
    + intros e s' [= <- <-] M. rewrite M. reflexivity.
    + intros e s' [= <- <-] M. rewrite M. reflexivity.
  - repeat split; discriminate.
Qed.

(** ** Exception checks *)

Lemma failed_n_failures {U} loc rest (s : state U) :
  utest_n_failures (failed loc rest s) = size_incr (utest_n_failures s).
Proof. reflexivity. Qed.

Lemma failed_n_checks {U} loc rest (s : state U) :
  utest_n_checks (failed loc rest s) = utest_n_checks s.
Proof. reflexivity. Qed.

Lemma failed_cout {U} loc rest (s : state U) :
  cout (failed loc rest s) = cout s ++ diagnostic loc rest s.
Proof. reflexivity. Qed.

Lemma failed_user {U} loc rest (s : state U) :
  user (failed loc rest s) = user s.
Proof. reflexivity. Qed.

(** A check records a failure exactly when it did not pass. *)
Lemma checked_failure_recorded {U} (m : exec U unit) loc critical s s'
    passed rest :
  checked m loc critical s s' passed rest ->
  utest_n_failures (final (m s)) = utest_n_failures s' <-> passed = true.
Proof.
  intros H. rewrite (checked_run H). destruct passed; cbn.
  - split; reflexivity.
  - rewrite after_failure_final, failed_n_failures. split.
    + intros E. now apply size_incr_neq in E.
    + discriminate.
Qed.

(** C5. With [st1] the outcome the classifier gives for the designated
    exception, [UTEST_THROW] passes exactly when [st1] is [expected]; on
    [none] and on [unexpected] it records a failure, each with a message of
    its own.  With [st2] the outcome for [std::exception], the kind built
    into [UTEST_NOTHROW], that check passes exactly when [st2] is [none] and
    records the same failure on both other outcomes. *)
Theorem throw_checks_verdict {U A} loc (call : expr U A) exception critical
    (s s1 s2 : state U) st1 st2 :
  check_throw exception (eval call ;; ret tt) (after_count s) = Ret st1 s1 ->
  check_throw "std::exception" (eval call ;; ret tt) (after_count s)
    = Ret st2 s2 ->
  let does_not_throw := "]: call {" ++ text call ++ "} does not throw!" ++ endl in
  let does_not_throw_it :=
    "]: call {" ++ text call ++ "} does not throw {" ++ exception ++ "}!"
      ++ endl in
  let throws := "]: call {" ++ text call ++ "} throws!" ++ endl in
  UTEST_THROW loc call exception critical s
    = match st1 with
      | expected => Ret tt s1
      | none => after_failure critical (failed loc does_not_throw s1)
      | unexpected => after_failure critical (failed loc does_not_throw_it s1)
      end
  /\ (utest_n_failures (final (UTEST_THROW loc call exception critical s))
        = utest_n_failures s1 <-> st1 = expected)
  /\ does_not_throw <> does_not_throw_it
  /\ UTEST_NOTHROW loc call critical s
     = match st2 with
       | none => Ret tt s2
       | expected | unexpected => after_failure critical (failed loc throws s2)
       end
  /\ (utest_n_failures (final (UTEST_NOTHROW loc call critical s))
        = utest_n_failures s2 <-> st2 = none).
Proof.
  intros H1 H2 does_not_throw does_not_throw_it throws.
  pose proof (checked_throw loc call exception critical s H1) as C1.
  pose proof (checked_nothrow loc call critical s H2) as C2.
  split; [|split; [|split; [|split]]].
  - rewrite (checked_run C1). destruct st1; reflexivity.
  - rewrite (checked_failure_recorded C1).
    destruct st1; split; congruence.
  - unfold does_not_throw, does_not_throw_it. intros E.
    apply append_inv_head, append_inv_head in E. cbn in E. discriminate E.
  - rewrite (checked_run C2). destruct st2; reflexivity.
  - rewrite (checked_failure_recorded C2).
    destruct st2; split; congruence.
Qed.

(** ** The run counters *)

Lemma checked_counters {U} (m : exec U unit) loc critical (s s' : state U)
    passed rest :
  checked m loc critical s s' passed rest ->
  same_counters (after_count s) s' ->
  utest_n_checks (final (m s)) = size_incr (utest_n_checks s)
  /\ utest_n_failures (final (m s))
     = if passed then utest_n_failures s
       else size_incr (utest_n_failures s).
Proof.
  intros H [Hc Hf]. cbn in Hc, Hf. rewrite (checked_run H).
  destruct passed; cbn.
  - now rewrite <- Hc, <- Hf.
  - rewrite after_failure_final, failed_n_checks, failed_n_failures.
    now rewrite <- Hc, <- Hf.
Qed.

(** C2, as the code has it.  A check whose operands leave the counters alone
    adds one to [utest_n_checks], and one to [utest_n_failures] when it fails
    and nothing when it passes, provided neither counter stands at
    [SIZE_MAX]; such a check keeps [utest_n_failures <= utest_n_checks] and
    lowers neither counter.  This holds for every check macro, whether the
    check is critical or not, in the state the check leaves behind. *)
Theorem check_counts {U} (m : exec U unit) loc critical (s s' : state U)
    passed rest :
  checked m loc critical s s' passed rest ->
  same_counters (after_count s) s' ->
  utest_n_checks s < SIZE_MAX ->
  utest_n_failures s < SIZE_MAX ->
  utest_n_checks (final (m s)) = utest_n_checks s + 1
  /\ utest_n_failures (final (m s))
     = utest_n_failures s + (if passed then 0 else 1)
  /\ (counters_ok s -> counters_ok (final (m s)))
  /\ utest_n_checks s <= utest_n_checks (final (m s))
  /\ utest_n_failures s <= utest_n_failures (final (m s)).
Proof.
  intros H Hq Hc Hf. unfold counters_ok.
  destruct (checked_counters H Hq) as [E1 E2].
  rewrite E1, E2, (size_incr_small Hc).
  destruct passed; [|rewrite (size_incr_small Hf)]; repeat split; lia.
Qed.

Lemma final_bind {U A B} (m : exec U A) (k : A -> exec U B) (s : state U) :
  final (bind m k s)
  = match m s with
    | Ret a s1 => final (k a s1)
    | Raise _ s1 => s1
    | Halt _ s1 => s1
    end.
Proof. cbn. destruct (m s); reflexivity. Qed.

Lemma counted_step_counters {U} (m : exec U unit) (s : state U) :
  counted_step m ->
  utest_n_checks s < SIZE_MAX ->
  counters_ok s ->
  counters_ok (final (m s))
  /\ utest_n_checks s <= utest_n_checks (final (m s))
  /\ utest_n_checks (final (m s)) <= utest_n_checks s + 1
  /\ utest_n_failures s <= utest_n_failures (final (m s)).
Proof.
  intros Hm Hc Hok. unfold counters_ok in *.
  destruct (Hm s) as [(loc & critical & s' & passed & rest & H & Hq) | [E1 E2]].
  - destruct (checked_counters H Hq) as [E1 E2].
    rewrite E1, E2, (size_incr_small Hc).
    destruct passed; [|rewrite size_incr_small by lia]; repeat split; lia.
  - rewrite <- E1, <- E2. repeat split; lia.
Qed.

(** Along a whole run of checks, cases and code that leaves the counters
    alone, however it ends, [utest_n_failures <= utest_n_checks] is kept and
    no counter goes down, as long as [utest_n_checks] has room for the
    statements of the run. *)
Lemma counters_along_run {U} (ms : list (exec U unit)) (s : state U) :
  Forall counted_step ms ->
  utest_n_checks s + N.of_nat (length ms) <= SIZE_MAX ->
  counters_ok s ->
  counters_ok (final (sequence ms s))
  /\ utest_n_checks s <= utest_n_checks (final (sequence ms s))
  /\ utest_n_checks (final (sequence ms s))
     <= utest_n_checks s + N.of_nat (length ms)
  /\ utest_n_failures s <= utest_n_failures (final (sequence ms s)).
Proof.
  intros Hms. revert s.
  induction Hms as [|m ms Hm _ IH]; intros s Hroom Hok.
  - cbn. repeat split; try assumption; lia.
  - cbn [length] in Hroom. rewrite Nat2N.inj_succ in Hroom.
    cbn [length]. rewrite Nat2N.inj_succ.
    cbn [sequence]. rewrite final_bind.
    assert (Hc : utest_n_checks s < SIZE_MAX) by lia.
    destruct (counted_step_counters Hm Hc Hok) as (Ok1 & Lo & Hi & Fl).
    destruct (m s) as [[] s1 | e s1 | c s1]; cbn [final] in Ok1, Lo, Hi, Fl.
    + destruct (IH s1) as (Ok2 & Lo2 & Hi2 & Fl2); [lia | assumption |].
      repeat split; try assumption; lia.
    + repeat split; try assumption; lia.
    + repeat split; try assumption; lia.
Qed.

Lemma times_over_succ {U} (k : N) (m : exec U unit) :
  times_over (N.succ k) m = (m ;; times_over k m).
Proof. unfold times_over. now rewrite N.iter_succ. Qed.

Lemma passing_check_run {U} loc t (s : state U) :
  UTEST_CHECK loc (value t true) s = Ret tt (after_count s).
Proof. reflexivity. Qed.

Lemma size_incr_lt (n : N) : size_incr n < 2 ^ SIZE_WIDTH.
Proof. unfold size_incr. apply N.mod_lt. rewrite size_modulus. discriminate. Qed.

Lemma times_over_passing {U} loc t (k : N) (s : state U) :
  utest_n_checks s < 2 ^ SIZE_WIDTH ->
  times_over k (UTEST_CHECK loc (value t true)) s
  = Ret tt (set_n_checks ((utest_n_checks s + k) mod 2 ^ SIZE_WIDTH) s).
Proof.
  revert s. induction k as [|k IH] using N.peano_ind; intros s Lt.
  - rewrite N.add_0_r, N.mod_small by assumption.
    destruct s; reflexivity.
  - rewrite times_over_succ.
    change ((UTEST_CHECK loc (value t true)
               ;; times_over k (UTEST_CHECK loc (value t true))) s)
      with (match UTEST_CHECK loc (value t true) s with
            | Ret _ s1 => times_over k (UTEST_CHECK loc (value t true)) s1
            | Raise e s1 => Raise e s1
            | Halt c s1 => Halt c s1
            end).
    rewrite passing_check_run, IH by apply size_incr_lt.
    unfold after_count, set_n_checks; cbn. do 2 f_equal.
    unfold size_incr. rewrite N.Div0.add_mod_idemp_l.
    f_equal. lia.
Qed.

(** C2 as the spec has it fails where the counter is full.  One failing
    check followed by [SIZE_MAX - 1] passing ones leaves [utest_n_checks] at
    [SIZE_MAX] and [utest_n_failures] at 1; the next check, which passes and
    whose operand touches nothing, takes [utest_n_checks] to 0: it did not
    grow by one, it went down, and [utest_n_failures <= utest_n_checks] no
    longer holds. *)
Lemma check_count_wraps :
  let L := At "test.cpp" 7 in
  let yes : exec unit unit := UTEST_CHECK L (value "true" true) in
  let no : exec unit unit := UTEST_CHECK L (value "false" false) in
  exists s : state unit,
    (no ;; times_over (SIZE_MAX - 1) yes) (initial tt) = Ret tt s
    /\ utest_n_checks s = SIZE_MAX
    /\ utest_n_failures s = 1
    /\ counters_ok s
    /\ checked yes L false s (after_count s) true
               ("]: check {true} failed!" ++ endl)
    /\ same_counters (after_count s) (after_count s)
    /\ utest_n_checks (final (yes s)) = 0
    /\ utest_n_checks (final (yes s)) <> utest_n_checks s + 1
    /\ ~ counters_ok (final (yes s))
    /\ ~ utest_n_checks s <= utest_n_checks (final (yes s)).
Proof.
  intros L yes no.
  exists (State EmptyString EmptyString 0 SIZE_MAX 1
                ("test.cpp:7: [/]: check {false} failed!" ++ endl) fixed12 tt).
  split.
  { change ((no ;; times_over (SIZE_MAX - 1) yes) (initial tt))
      with (match no (initial tt) with
            | Ret _ s1 => times_over (SIZE_MAX - 1) yes s1
            | Raise e s1 => Raise e s1
            | Halt c s1 => Halt c s1
            end).
    replace (no (initial tt))
      with (Ret (U:=unit) tt
              (State EmptyString EmptyString 0 1 1
                 ("test.cpp:7: [/]: check {false} failed!" ++ endl)
                 fixed12 tt))
      by reflexivity.
    unfold yes. rewrite times_over_passing by reflexivity. reflexivity. }
  split; [reflexivity|]. split; [reflexivity|].
  split; [unfold counters_ok; cbn; lia|].
  split; [apply (checked_boolean L (value "true" true) false); reflexivity|].
  split; [split; reflexivity|].
  split; [reflexivity|].
  split; [cbn; discriminate|].
  split.
  - unfold counters_ok. cbn. lia.
  - cbn. lia.
Qed.

(** ** Critical checks *)

Lemma bind_halt {U A B} (m : exec U A) (k : A -> exec U B) (s sf : state U) c :
  m s = Halt c sf -> bind m k s = Halt c sf.
Proof. intros E. cbn. now rewrite E. Qed.

Lemma bind_ret {U A B} (m : exec U A) (k : A -> exec U B) (s s1 : state U) a :
  m s = Ret a s1 -> bind m k s = k a s1.
Proof. intros E. cbn. now rewrite E. Qed.

Lemma check_throw_halt {U} texception (op : exec U unit) (s sf : state U) c :
  op s = Halt c sf -> check_throw texception op s = Halt c sf.
Proof. intros E. now rewrite check_throw_run, E. Qed.

Lemma main_halt {U} name (body : exec U unit) (s sf : state U) c :
  (UTEST_BEGIN_MODULE name ;; body) s = Halt c sf ->
  main name body s = Halt c sf.
Proof. intros E. now rewrite main_run, E. Qed.

(** C3. A check that fails with its critical flag set ends the process with
    FAILURE in the state its diagnostic leaves.  What follows it does not
    run, whatever it is; a [try] around it, the classifier's or the module's,
    does not see it; and the last thing written is the diagnostic of the
    check, not the summary of the module end. *)
Theorem critical_failure_terminates {U} (m : exec U unit) loc
    (s s' : state U) rest :
  checked m loc true s s' false rest ->
  m s = Halt EXIT_FAILURE (failed loc rest s')
  /\ (forall k : exec U unit,
      (m ;; k) s = Halt EXIT_FAILURE (failed loc rest s'))
  /\ (forall texception (k : exec U unit),
      check_throw texception (m ;; k) s
      = Halt EXIT_FAILURE (failed loc rest s'))
  /\ (forall name (pre k : exec U unit) s0,
      (UTEST_BEGIN_MODULE name ;; pre) s0 = Ret tt s ->
      main name (pre ;; m ;; k) s0 = Halt EXIT_FAILURE (failed loc rest s'))
  /\ cout (failed loc rest s') = cout s' ++ diagnostic loc rest s'
  /\ utest_n_checks (failed loc rest s') = utest_n_checks s'.
Proof.
  intros H.
  assert (E : m s = Halt EXIT_FAILURE (failed loc rest s'))
    by (rewrite (checked_run H); reflexivity).
  split; [exact E|].
  split; [intros k; now apply bind_halt|].
  split; [intros t k; now apply check_throw_halt, bind_halt|].
  split; [|split; reflexivity].
  intros name pre k s0 Hpre. apply main_halt.
  change ((UTEST_BEGIN_MODULE name ;; pre ;; m ;; k) s0)
    with (bind (UTEST_BEGIN_MODULE name ;; pre) (fun _ => m ;; k) s0).
  erewrite bind_ret by exact Hpre. now apply bind_halt.
Qed.

(** ** Relational checks *)

Lemma binary_op_run {U A B} `{Show A} `{Show B} loc (left : expr U A)
    (right : expr U B) op critical (s s1 s2 : state U) a b :
  eval left (after_count s) = Ret a s1 ->
  eval right s1 = Ret b s2 ->
  UTEST_EVALUATE_BINARY_OP loc left right op critical s
  = if op_holds op a b then Ret tt s2
    else after_failure critical
           (failed loc
              ("]: check {" ++ text left ++ " " ++ op_text op ++ " "
               ++ text right ++ "} failed {" ++ show a ++ " " ++ op_text op
               ++ " " ++ show b ++ "}!" ++ endl) s2).
Proof.
  intros Hl Hr.
  exact (checked_run (checked_relational _ _ loc left right op critical s Hl Hr)).
Qed.

Lemma binary_op_user {U A B} `{Show A} `{Show B} loc (left : expr U A)
    (right : expr U B) op critical (s s1 s2 : state U) a b :
  eval left (after_count s) = Ret a s1 ->
  eval right s1 = Ret b s2 ->
  user (final (UTEST_EVALUATE_BINARY_OP loc left right op critical s))
  = user s2.
Proof.
  intros Hl Hr. rewrite (binary_op_run loc left right op critical s Hl Hr).
  destruct (op_holds op a b); [reflexivity|].
  now rewrite after_failure_final.
Qed.

(** The six relational macros are [UTEST_EVALUATE_BINARY_OP] at their
    operator. *)
Lemma relational_macros {U A} `{Show A} `{Comparable A} loc
    (left right : expr U A) critical :
  UTEST_EVALUATE_EQUAL loc left right critical
    = UTEST_EVALUATE_BINARY_OP loc left right (BinOp "==" cmp_eq) critical
  /\ UTEST_EVALUATE_NOT_EQUAL loc left right critical
     = UTEST_EVALUATE_BINARY_OP loc left right (BinOp "!=" cmp_ne) critical
  /\ UTEST_EVALUATE_LESS loc left right critical
     = UTEST_EVALUATE_BINARY_OP loc left right (BinOp "<" cmp_lt) critical
  /\ UTEST_EVALUATE_LESS_EQUAL loc left right critical
     = UTEST_EVALUATE_BINARY_OP loc left right (BinOp "<=" cmp_le) critical
  /\ UTEST_EVALUATE_GREATER loc left right critical
     = UTEST_EVALUATE_BINARY_OP loc left right (BinOp ">" cmp_gt) critical
  /\ UTEST_EVALUATE_GREATER_EQUAL loc left right critical
     = UTEST_EVALUATE_BINARY_OP loc left right (BinOp ">=" cmp_ge) critical.
Proof. repeat split. Qed.

(** C9. A relational check whose operands return leaves the state of the
    code under test as one evaluation of the left operand followed by one of
    the right operand leaves it, whether it passes or fails: an observer that
    every evaluation of an operand advances by one stands one higher
    afterwards.  When the relation does not hold of the two values the
    diagnostic of the check is written, and the two values as they print,
    with the operator between them, occur in it. *)
Theorem relational_check_once {U A B} `{Show A} `{Show B} loc
    (left : expr U A) (right : expr U B) op critical (s s1 s2 : state U) a b :
  eval left (after_count s) = Ret a s1 ->
  eval right s1 = Ret b s2 ->
  let r := UTEST_EVALUATE_BINARY_OP loc left right op critical s in
  let rest := "]: check {" ++ text left ++ " " ++ op_text op ++ " "
                ++ text right ++ "} failed {" ++ show a ++ " " ++ op_text op
                ++ " " ++ show b ++ "}!" ++ endl in
  user (final r) = user s2
  /\ (forall n_left n_right : U -> nat,
      (forall s0, n_left (user (final (eval left s0))) = S (n_left (user s0))
                  /\ n_right (user (final (eval left s0))) = n_right (user s0)) ->
      (forall s0, n_right (user (final (eval right s0))) = S (n_right (user s0))
                  /\ n_left (user (final (eval right s0))) = n_left (user s0)) ->
      n_left (user (final r)) = S (n_left (user s))
      /\ n_right (user (final r)) = S (n_right (user s)))
  /\ (op_holds op a b = true -> r = Ret tt s2)
  /\ (op_holds op a b = false ->
      r = after_failure critical (failed loc rest s2)
      /\ cout (final r) = cout s2 ++ diagnostic loc rest s2
      /\ occurs_in (show a ++ " " ++ op_text op ++ " " ++ show b)
                   (diagnostic loc rest s2)).
Proof.
  intros Hl Hr r rest.
  assert (Eu : user (final r) = user s2)
    by exact (binary_op_user loc left right op critical s Hl Hr).
  split; [exact Eu|]. split; [|split].
  - intros n_left n_right Xl Xr. rewrite Eu.
    destruct (Xl (after_count s)) as [L1 L2].
    destruct (Xr s1) as [R1 R2].
    rewrite Hl in L1, L2. rewrite Hr in R1, R2. cbn [final] in *.
    rewrite R1, R2, L1, L2. split; reflexivity.
  - intros T. unfold r.
    rewrite (binary_op_run loc left right op critical s Hl Hr), T. reflexivity.
  - intros F. unfold r.
    rewrite (binary_op_run loc left right op critical s Hl Hr), F.
    split; [reflexivity|].
    rewrite after_failure_final, failed_cout. split; [reflexivity|].
    exists (file loc ++ ":" ++ show (line loc) ++ ": [" ++ utest_module_name s2
            ++ "/" ++ utest_case_name s2 ++ "]: check {" ++ text left ++ " "
            ++ op_text op ++ " " ++ text right ++ "} failed {"),
           ("}!" ++ endl).
    unfold diagnostic, rest. rewrite !append_assoc. reflexivity.
Qed.

(** ** Approximate equality *)

Lemma both_values {U A B} (o : order) (a : A) (b : B) (s : state U) :
  both o (ret a) (ret b) s = Ret (a, b) s.
Proof. destruct o; reflexivity. Qed.


Lemma ticks_ret {U A} (n : U -> nat) (a : A) : ticks n 0 (ret (m := exec U) a).
Proof. intros s. exists a, s. split; reflexivity. Qed.

Lemma ticks_bind {U A B} (n : U -> nat) k j (m : exec U A)
    (f : A -> exec U B) :
  ticks n k m -> (forall a, ticks n j (f a)) -> ticks n (k + j) (bind m f).
Proof.
  intros Hm Hf s.
  destruct (Hm s) as (a & s1 & E1 & N1).
  destruct (Hf a s1) as (b & s2 & E2 & N2).
  exists b, s2. split.
  - cbn. now rewrite E1.
  - rewrite N2, N1. lia.
Qed.

Lemma ticks_map {U A B} (n : U -> nat) k (m : exec U A) (f : A -> B) :
  ticks n k m -> ticks n k (a <- m ;; ret (f a)).
Proof.
  intros Hm. replace k with (k + 0)%nat by lia.
  apply ticks_bind; [exact Hm|]. intros a. apply ticks_ret.
Qed.

Lemma ticks_both {U A B} (n : U -> nat) k j (o : order) (l : exec U A)
    (r : exec U B) :
  ticks n k l -> ticks n j r -> ticks n (k + j) (both o l r).
Proof.
  intros Hl Hr. destruct o; unfold both.
  - replace (k + j)%nat with (k + (j + 0))%nat by lia.
    apply ticks_bind; [exact Hl|]. intros a.
    apply ticks_bind; [exact Hr|]. intros b. apply ticks_ret.
  - replace (k + j)%nat with (j + (k + 0))%nat by lia.
    apply ticks_bind; [exact Hr|]. intros b.
    apply ticks_bind; [exact Hl|]. intros a. apply ticks_ret.
Qed.

(** Whatever its two operands are, a relational check runs each once. *)
Lemma binary_op_ticks {U A B} `{Show A} `{Show B} loc (left : expr U A)
    (right : expr U B) op critical (n : U -> nat) k j (s : state U) :
  ticks n k (eval left) ->
  ticks n j (eval right) ->
  n (user (final (UTEST_EVALUATE_BINARY_OP loc left right op critical s)))
  = (k + j + n (user s))%nat.
Proof.
  intros Hl Hr.
  destruct (Hl (after_count s)) as (a & s1 & E1 & N1).
  destruct (Hr s1) as (b & s2 & E2 & N2).
  rewrite (binary_op_user loc left right op critical s E1 E2).
  rewrite N2, N1. cbn. lia.
Qed.

(** A close check is the relational check on what its distance and its
    bound evaluate to, whatever the order of evaluation and the shape of the
    tolerance. *)
Lemma close_run {U A} `{Show A} `{Comparable A} `{Arith A} `{C : Compiler} loc
    (left right : expr U A) (epsilon : tolerance U A) critical
    (s s1 s2 : state U) d b :
  eval (close_distance left right) (after_count s) = Ret d s1 ->
  eval (close_bound left right epsilon) s1 = Ret b s2 ->
  checked (UTEST_EVALUATE_CLOSE loc left right epsilon critical)
          loc critical s s2 (cmp_lt d b)
          ("]: check {" ++ text (close_distance left right) ++ " < "
           ++ text (close_bound left right epsilon) ++ "} failed {"
           ++ show d ++ " < " ++ show b ++ "}!" ++ endl).
Proof.
  intros Hd Hb.
  exact (checked_relational _ _ loc (close_distance left right)
           (close_bound left right epsilon) (BinOp "<" cmp_lt) critical s
           Hd Hb).
Qed.

Lemma close_distance_value {U A} `{Arith A} `{C : Compiler} tl tr (l r : A)
    (s : state U) :
  eval (close_distance (value tl l) (value tr r)) s
  = Ret (fabs (minus l r)) s.
Proof. cbn [eval close_distance value]. destruct order_of_difference; reflexivity. Qed.

Lemma close_scale_value {U A} `{Arith A} `{C : Compiler} tl tr (l r : A)
    (s : state U) :
  close_scale (value tl l) (value tr r) s
  = Ret (plus (plus one (fabs l)) (fabs r)) s.
Proof. unfold close_scale. cbn [eval value]. destruct order_of_sum; reflexivity. Qed.

(** On operand values and a tolerance that binds at least as tightly as
    [*], the values compared are the distance and the tolerance times the
    scale. *)
Lemma close_operand_run {U A} `{Show A} `{Comparable A} `{Arith A}
    `{C : Compiler} loc tl tr te (l r e : A) critical (s : state U) :
  checked (UTEST_EVALUATE_CLOSE loc (value tl l) (value tr r)
                                (plain (value te e)) critical)
          loc critical s (after_count s)
          (cmp_lt (fabs (minus l r))
                  (times e (plus (plus one (fabs l)) (fabs r))))
          ("]: check {"
           ++ text (close_distance (U:=U) (value tl l) (value tr r)) ++ " < "
           ++ text (close_bound (U:=U) (value tl l) (value tr r)
                                (plain (value te e)))
           ++ "} failed {" ++ show (fabs (minus l r)) ++ " < "
           ++ show (times e (plus (plus one (fabs l)) (fabs r)))
           ++ "}!" ++ endl).
Proof.
  apply close_run with (s1 := after_count s).
  - apply close_distance_value.
  - cbn [eval close_bound plain tol_parse splice value].
    unfold close_scale. cbn [eval value].
    destruct order_of_product, order_of_sum; reflexivity.
Qed.

(** On operand values and a tolerance [a + b] written without parentheses,
    the values compared are the distance and [a + b * scale]. *)
Lemma close_sum_run {U A} `{Show A} `{Comparable A} `{Arith A}
    `{C : Compiler} loc tl tr te (l r a b : A) critical (s : state U) :
  checked (UTEST_EVALUATE_CLOSE loc (value tl l) (value tr r)
                                (Tolerance te (tol_sum (ret a) (ret b)))
                                critical)
          loc critical s (after_count s)
          (cmp_lt (fabs (minus l r))
                  (plus a (times b (plus (plus one (fabs l)) (fabs r)))))
          ("]: check {"
           ++ text (close_distance (U:=U) (value tl l) (value tr r)) ++ " < "
           ++ text (close_bound (U:=U) (value tl l) (value tr r)
                                (Tolerance te (tol_sum (ret a) (ret b))))
           ++ "} failed {" ++ show (fabs (minus l r)) ++ " < "
           ++ show (plus a (times b (plus (plus one (fabs l)) (fabs r))))
           ++ "}!" ++ endl).
Proof.
  apply close_run with (s1 := after_count s).
  - apply close_distance_value.
  - cbn [eval close_bound tol_parse splice value].
    unfold close_scale. cbn [eval value].
    destruct order_of_tolerance, order_of_product, order_of_sum; reflexivity.
Qed.

(** What holds of the formula of the spec: with a tolerance that binds at
    least as tightly as [*] the check passes exactly when
    [fabs (l - r) < e * (1 + fabs l + fabs r)], in the arithmetic and the
    order of the operand type and for every order of evaluation. *)
Lemma close_operand_formula {U A} `{Show A} `{Comparable A} `{Arith A}
    `{C : Compiler} loc tl tr te (l r e : A) critical (s : state U) :
  utest_n_failures
    (final (UTEST_EVALUATE_CLOSE loc (value tl l) (value tr r)
                                 (plain (value te e)) critical s))
  = utest_n_failures s
  <-> cmp_lt (fabs (minus l r)) (times e (plus (plus one (fabs l)) (fabs r)))
      = true.
Proof.
  exact (checked_failure_recorded
           (close_operand_run loc tl tr te l r e critical s)).
Qed.

(** What the code computes for a tolerance [a + b]: the check passes exactly
    when [fabs (l - r) < a + b * (1 + fabs l + fabs r)]. *)
Lemma close_sum_formula {U A} `{Show A} `{Comparable A} `{Arith A}
    `{C : Compiler} loc tl tr te (l r a b : A) critical (s : state U) :
  utest_n_failures
    (final (UTEST_EVALUATE_CLOSE loc (value tl l) (value tr r)
                                 (Tolerance te (tol_sum (ret a) (ret b)))
                                 critical s))
  = utest_n_failures s
  <-> cmp_lt (fabs (minus l r))
             (plus a (times b (plus (plus one (fabs l)) (fabs r))))
      = true.
Proof.
  exact (checked_failure_recorded
           (close_sum_run loc tl tr te l r a b critical s)).
Qed.

(** C6. The check of the spec's formula is not what line 202 computes when
    the tolerance is a sum: [epsilon] is written without parentheses, so
    [UTEST_CHECK_CLOSE(0.0, 2.0, 0.5 + 0.5)] compares [|0 - 2|] with
    [0.5 + 0.5 * (1 + |0| + |2|)], which is 2, and fails, although
    [|0 - 2| < (0.5 + 0.5) * (1 + |0| + |2|)]; with the tolerance in
    parentheses the same check passes.  This is so for every order of
    evaluation. *)
Theorem close_tolerance_not_parenthesised `{C : Compiler} :
  let L := At "test.cpp" 7 in
  let run (epsilon : tolerance unit float) :=
    UTEST_CHECK_CLOSE L (value "0.0" 0.0%float) (value "2.0" 2.0%float)
                      epsilon (initial tt) in
  (abs (0.0 - 2.0) <? (0.5 + 0.5) * (1 + abs 0.0 + abs 2.0))%float = true
  /\ utest_n_failures
       (final (run (Tolerance "0.5 + 0.5"
                      (tol_sum (ret 0.5%float) (ret 0.5%float))))) = 1
  /\ (abs (0.0 - 2.0) <? 0.5 + 0.5 * (1 + abs 0.0 + abs 2.0))%float = false
  /\ utest_n_failures
       (final (run (plain (value "(0.5 + 0.5)" (0.5 + 0.5)%float)))) = 0.
Proof.
  intros L run.
  split; [reflexivity|]. split; [|split; [reflexivity|]].
  - unfold run, UTEST_CHECK_CLOSE.
    rewrite (checked_run (close_sum_run L "0.0" "2.0" "0.5 + 0.5"
                            0.0%float 2.0%float 0.5%float 0.5%float false
                            (initial tt))).
    reflexivity.
  - unfold run, UTEST_CHECK_CLOSE.
    rewrite (checked_run (close_operand_run L "0.0" "2.0" "(0.5 + 0.5)"
                            0.0%float 2.0%float (0.5 + 0.5)%float false
                            (initial tt))).
    reflexivity.
Qed.

(** With a tolerance that binds at least as tightly as [*], both operands
    are evaluated for the distance and once more for the bound. *)
Lemma close_operand_ticks {U A} `{Show A} `{Comparable A} `{Arith A}
    `{C : Compiler} loc (left right e : expr U A) critical (n : U -> nat)
    kl kr ke (s : state U) :
  ticks n kl (eval left) ->
  ticks n kr (eval right) ->
  ticks n ke (eval e) ->
  n (user (final (UTEST_EVALUATE_CLOSE loc left right (plain e) critical s)))
  = (2 * kl + 2 * kr + ke + n (user s))%nat.
Proof.
  intros Hl Hr He.
  unfold UTEST_EVALUATE_CLOSE, UTEST_EVALUATE_LESS.
  rewrite (binary_op_ticks loc (close_distance left right)
             (close_bound left right (plain e)) (BinOp "<" cmp_lt) critical
             (n := n) (k := (kl + kr)%nat) (j := (ke + (kl + kr))%nat) s).
  - lia.
  - cbn [eval close_distance]. apply ticks_map. now apply ticks_both.
  - cbn [eval close_bound plain tol_parse splice]. apply ticks_map.
    apply ticks_both; [exact He|].
    unfold close_scale. apply ticks_map. now apply ticks_both.
Qed.

(** C10. The two operands are not always evaluated twice: [epsilon] is
    written without parentheses on line 202, and with the tolerance
    [c ? 1e-6 : 1e-3] the bound parses as [c ? 1e-6 : (1e-3 * (...))], so
    that for a true [c] the second evaluations of [left] and [right] are
    skipped and each operand has been evaluated once.  With the tolerance in
    parentheses each has been evaluated twice.  This is so for every order
    of evaluation. *)
Theorem close_conditional_tolerance `{C : Compiler} :
  let L := At "test.cpp" 7 in
  let left := counting_call "f()" false 1.0%float in
  let right := counting_call "g()" true 1.0%float in
  let run (epsilon : tolerance (nat * nat) float) :=
    user (final (UTEST_EVALUATE_CLOSE L left right epsilon false
                                      (initial (0, 0)%nat))) in
  run (Tolerance "c ? 1e-6 : 1e-3"
         (tol_conditional (ret true) (ret 1e-6%float)
                          (tol_operand (ret 1e-3%float))))
  = (1, 1)%nat
  /\ run (plain (Expr "(c ? 1e-6 : 1e-3)"
                      (c <- ret true ;;
                       if c : bool then ret 1e-6%float else ret 1e-3%float)))
     = (2, 2)%nat.
Proof.
  intros L left right run. unfold run.
  destruct C as [[] [] [] []]; split; reflexivity.
Qed.

(** On [double] operands the test of the formula is the IEEE comparison of
    the two IEEE expressions. *)
Lemma close_check_double {U} `{C : Compiler} loc tl tr te (l r e : float)
    critical (s : state U) :
  utest_n_failures
    (final (UTEST_EVALUATE_CLOSE loc (value tl l) (value tr r)
                                 (plain (value te e)) critical s))
  = utest_n_failures s
  <-> (abs (l - r) <? e * (1 + abs l + abs r))%float = true.
Proof. exact (close_operand_formula loc tl tr te l r e critical s). Qed.

(** ** The examples of the spec *)

Example check_equal_examples :
  let L := At "test.cpp" 7 in
  UTEST_CHECK_EQUAL L (value "2+2" (2 + 2)%Z) (value "4" 4%Z) (initial tt)
  = Ret tt (after_count (initial tt))
  /\ UTEST_CHECK_EQUAL L (value "2+2" (2 + 2)%Z) (value "5" 5%Z) (initial tt)
     = Ret tt (State EmptyString EmptyString 0 1 1
                 ("test.cpp:7: [/]: check {2+2 == 5} failed {4 == 5}!" ++ endl)
                 fixed12 tt).
Proof. split; reflexivity. Qed.

Example check_close_examples `{C : Compiler} :
  let L := At "test.cpp" 7 in
  UTEST_CHECK_CLOSE L (value "1.0" 1.0%float)
                    (value "1.0 + 1e-10" (1.0 + 1e-10)%float)
                    (plain (value "1e-6" 1e-6%float)) (initial tt)
  = Ret tt (after_count (initial tt))
  /\ UTEST_CHECK_CLOSE L (value "1.0" 1.0%float) (value "1.1" 1.1%float)
                       (plain (value "1e-6" 1e-6%float)) (initial tt)
     = Ret tt (State EmptyString EmptyString 0 1 1
                 ("test.cpp:7: [/]: check {std::fabs((1.0) - (1.1)) < "
                  ++ "1e-6 * (1 + std::fabs((1.0)) + std::fabs((1.1)))} "
                  ++ "failed {0.100000000000 < 0.000003100000}!" ++ endl)
                 fixed12 tt).
Proof. destruct C as [[] [] [] []]; split; vm_compute; reflexivity. Qed.

Example check_throw_examples :
  let L := At "test.cpp" 7 in
  let raises := Expr "f()" (throw_runtime_error "boom") in
  let raises_int := Expr "g()" throw_int in
  let returns := value "h()" tt in
  let failures (m : exec unit unit) := utest_n_failures (final (m (initial tt))) in
  failures (UTEST_CHECK_THROW L raises "std::runtime_error") = 0
  /\ failures (UTEST_CHECK_THROW L raises "std::exception") = 0
  /\ failures (UTEST_CHECK_THROW L raises_int "std::runtime_error") = 1
  /\ failures (UTEST_CHECK_THROW L returns "std::runtime_error") = 1
  /\ failures (UTEST_CHECK_NOTHROW L returns) = 0
  /\ failures (UTEST_CHECK_NOTHROW L raises) = 1
  /\ failures (UTEST_CHECK_NOTHROW L raises_int) = 1.
Proof. repeat split. Qed.

(** Three cases, ten checks that are not critical, two of them failing, and
    the same module with none failing. *)
Example end_to_end :
  let L := At "test.cpp" 7 in
  let ok : exec unit unit := UTEST_CHECK L (value "true" true) in
  let ko : exec unit unit := UTEST_CHECK_EQUAL L (value "1" 1%Z) (value "2" 2%Z) in
  let module (x : exec unit unit) :=
    main "m" (UTEST_CASE "a" ;; ok ;; ok ;; x ;; ok ;;
              UTEST_CASE "b" ;; ok ;; x ;; ok ;;
              UTEST_CASE "c" ;; ok ;; ok ;; ok) (initial tt) in
  exit_code (module ko) = Some EXIT_FAILURE
  /\ utest_n_cases (final (module ko)) = 3
  /\ utest_n_checks (final (module ko)) = 10
  /\ utest_n_failures (final (module ko)) = 2
  /\ occurs_in ("  failed with 2 errors in 10 checks!" ++ endl)
               (cout (final (module ko)))
  /\ exit_code (module ok) = Some EXIT_SUCCESS
  /\ utest_n_checks (final (module ok)) = 10
  /\ utest_n_failures (final (module ok)) = 0
  /\ occurs_in ("  no errors detected in 10 checks." ++ endl)
               (cout (final (module ok))).
Proof.
  repeat split.
  - exists ("running test case [m/a] ..." ++ endl
            ++ "test.cpp:7: [m/a]: check {1 == 2} failed {1 == 2}!" ++ endl
            ++ "running test case [m/b] ..." ++ endl
            ++ "test.cpp:7: [m/b]: check {1 == 2} failed {1 == 2}!" ++ endl
            ++ "running test case [m/c] ..." ++ endl), EmptyString.
    reflexivity.
  - exists ("running test case [m/a] ..." ++ endl
            ++ "running test case [m/b] ..." ++ endl
            ++ "running test case [m/c] ..." ++ endl), EmptyString.
    reflexivity.
Qed.

(** ** The theorems at concrete programs *)

Lemma module_end_verdict_witness :
  let body : exec unit unit := UTEST_CHECK (At "test.cpp" 7) (value "true" true) in
  (forall c s', (UTEST_BEGIN_MODULE "m" ;; body) (initial tt) <> Halt c s')
  /\ exists code sf,
       main "m" body (initial tt) = Halt code sf
       /\ (code = EXIT_SUCCESS \/ code = EXIT_FAILURE)
       /\ (code = EXIT_SUCCESS <->
           exists s', (UTEST_BEGIN_MODULE "m" ;; body) (initial tt) = Ret tt s'
                      /\ utest_n_failures s' = 0).
Proof.
  intros body.
  assert (H : forall c s',
             (UTEST_BEGIN_MODULE "m" ;; body) (initial tt) <> Halt c s')
    by (intros c s'; vm_compute; discriminate).
  split; [exact H|].
  destruct (module_end_verdict "m" body (initial tt) H)
    as (code & sf & E & D & V & _).
  exists code, sf. repeat split; try assumption; apply V.
Defined.

Lemma uncaught_failure_handled_witness :
  let body : exec unit unit := throw_runtime_error "boom" in
  let e := Thrown ["std::runtime_error"; "std::exception"] "boom" in
  let s' := set_module_name "m" (initial tt) in
  (UTEST_BEGIN_MODULE "m" ;; body) (initial tt) = Raise e s'
  /\ main "m" body (initial tt)
     = Halt EXIT_FAILURE (set_cout (cout s' ++ uncaught_report e) s').
Proof.
  intros body e s'.
  assert (H : (UTEST_BEGIN_MODULE "m" ;; body) (initial tt) = Raise e s')
    by reflexivity.
  split; [exact H|].
  exact (proj1 (uncaught_failure_handled "m" body (initial tt) H)).
Defined.

Lemma throw_checks_verdict_witness :
  let L := At "test.cpp" 7 in
  let call : expr unit unit := Expr "f()" (throw_runtime_error "boom") in
  let s := initial tt in
  check_throw "std::runtime_error" (eval call ;; ret tt) (after_count s)
    = Ret expected (after_count s)
  /\ check_throw "std::exception" (eval call ;; ret tt) (after_count s)
     = Ret expected (after_count s)
  /\ UTEST_THROW L call "std::runtime_error" false s = Ret tt (after_count s).
Proof.
  intros L call s.
  assert (H1 : check_throw "std::runtime_error" (eval call ;; ret tt)
                 (after_count s) = Ret expected (after_count s))
    by reflexivity.
  assert (H2 : check_throw "std::exception" (eval call ;; ret tt)
                 (after_count s) = Ret expected (after_count s))
    by reflexivity.
  split; [exact H1|]. split; [exact H2|].
  exact (proj1 (throw_checks_verdict L call "std::runtime_error" false s H1 H2)).
Defined.

Lemma check_counts_witness :
  let L := At "test.cpp" 7 in
  let m : exec unit unit := UTEST_CHECK L (value "false" false) in
  let s := initial tt in
  checked m L false s (after_count s) false
          ("]: check {false} failed!" ++ endl)
  /\ same_counters (after_count s) (after_count s)
  /\ utest_n_checks s < SIZE_MAX
  /\ utest_n_failures s < SIZE_MAX
  /\ utest_n_checks (final (m s)) = utest_n_checks s + 1
  /\ utest_n_failures (final (m s)) = utest_n_failures s + 1.
Proof.
  intros L m s.
  assert (H : checked m L false s (after_count s) false
                      ("]: check {false} failed!" ++ endl))
    by (apply (checked_boolean L (value "false" false) false); reflexivity).
  assert (Q : same_counters (after_count s) (after_count s))
    by (split; reflexivity).
  assert (Hc : utest_n_checks s < SIZE_MAX) by reflexivity.
  assert (Hf : utest_n_failures s < SIZE_MAX) by reflexivity.
  repeat (split; [assumption|]).
  destruct (check_counts H Q Hc Hf) as (E1 & E2 & _).
  split; assumption.
Defined.

Lemma critical_failure_terminates_witness :
  let L := At "test.cpp" 7 in
  let m : exec unit unit := UTEST_REQUIRE L (value "false" false) in
  let s := initial tt in
  let rest := "]: check {false} failed!" ++ endl in
  checked m L true s (after_count s) false rest
  /\ m s = Halt EXIT_FAILURE (failed L rest (after_count s))
  /\ main "m" (m ;; UTEST_CHECK L (value "true" true)) s
     = Halt EXIT_FAILURE
         (State EmptyString "m" 0 1 1
                ("test.cpp:7: [m/]: check {false} failed!" ++ endl)
                fixed12 tt).
Proof.
  intros L m s rest.
  assert (H : checked m L true s (after_count s) false rest)
    by (apply (checked_boolean L (value "false" false) true); reflexivity).
  split; [exact H|].
  split; [exact (proj1 (critical_failure_terminates H))|].
  reflexivity.
Defined.

Lemma relational_check_once_witness :
  let L := At "test.cpp" 7 in
  let left := counting_call "f()" false 4%Z in
  let right := counting_call "g()" true 5%Z in
  let s := initial (0, 0)%nat in
  let s1 := set_user (1, 0)%nat (after_count s) in
  let s2 := set_user (1, 1)%nat (after_count s) in
  eval left (after_count s) = Ret 4%Z s1
  /\ eval right s1 = Ret 5%Z s2
  /\ user (final (UTEST_EVALUATE_BINARY_OP L left right (BinOp "==" cmp_eq)
                                           false s))
     = (1, 1)%nat.
Proof.
  intros L left right s s1 s2.
  assert (Hl : eval left (after_count s) = Ret 4%Z s1) by reflexivity.
  assert (Hr : eval right s1 = Ret 5%Z s2) by reflexivity.
  split; [exact Hl|]. split; [exact Hr|].
  exact (proj1 (relational_check_once L left right (BinOp "==" cmp_eq) false
                  s Hl Hr)).
Defined.

Lemma check_throw_classifies_witness :
  let op : exec unit unit := throw_runtime_error "boom" in
  let e := Thrown ["std::runtime_error"; "std::exception"] "boom" in
  op (initial tt) = Raise e (initial tt)
  /\ handler_matches "std::exception" e = true
  /\ check_throw "std::exception" op (initial tt) = Ret expected (initial tt).
Proof.
  intros op e.
  assert (H : op (initial tt) = Raise e (initial tt)) by reflexivity.
  assert (M : handler_matches "std::exception" e = true) by reflexivity.
  split; [exact H|]. split; [exact M|].
  destruct (check_throw_classifies "std::exception" op (initial tt))
    as (_ & _ & _ & _ & X & _).
  exact (X e (initial tt) H M).
Defined.

(** * Further properties of the header *)

(** ** Whole runs of a module *)

Lemma main_counters {U} name (body : exec U unit) (s : state U) :
  same_counters (final (main name body s))
                (final (body (set_module_name name s))).
Proof.
  rewrite main_run.
  change ((UTEST_BEGIN_MODULE name ;; body) s)
    with (body (set_module_name name s)).
  destruct (body (set_module_name name s)) as [[] s' | e s' | c s'].
  - rewrite end_module_run. split; reflexivity.
  - split; reflexivity.
  - split; reflexivity.
Qed.

(** X1. However a module ends, at its end, at a critical check, by an
    escaped exception or by an [exit] of the code under test, the state it
    ends in has no more failures than checks and no more checks than the body
    has statements, when the body is made of checks whose operands leave the
    counters alone, cases and code that leaves the counters alone, fewer than
    [SIZE_MAX] of them. *)
Theorem module_run_counters {U} name (ms : list (exec U unit)) (u : U) :
  Forall counted_step ms ->
  N.of_nat (length ms) <= SIZE_MAX ->
  utest_n_failures (final (main name (sequence ms) (initial u)))
    <= utest_n_checks (final (main name (sequence ms) (initial u)))
  /\ utest_n_checks (final (main name (sequence ms) (initial u)))
     <= N.of_nat (length ms).
Proof.
  intros Hms Hroom.
  destruct (main_counters name (sequence ms) (initial u)) as [E1 E2].
  rewrite E1, E2.
  destruct (counters_along_run (s := set_module_name name (initial u)) Hms)
    as (Ok & _ & Hi & _).
  - exact Hroom.
  - unfold counters_ok. cbn. lia.
  - split; [exact Ok | exact Hi].
Qed.

(** X2. A recorded failure stays: from a state with a failure, a body of
    such statements that reaches the module end ends the process with
    FAILURE, after the summary. *)
Theorem failure_is_kept {U} (ms : list (exec U unit)) (s s' : state U) :
  Forall counted_step ms ->
  counters_ok s ->
  utest_n_checks s + N.of_nat (length ms) <= SIZE_MAX ->
  0 < utest_n_failures s ->
  sequence ms s = Ret tt s' ->
  (sequence ms ;; UTEST_END_MODULE) s
    = Halt EXIT_FAILURE (set_cout (cout s' ++ summary s') s')
  /\ utest_n_failures s <= utest_n_failures s'.
Proof.
  intros Hms Hok Hroom Hpos Hrun.
  destruct (counters_along_run Hms Hroom Hok) as (_ & _ & _ & Fl).
  rewrite Hrun in Fl. cbn [final] in Fl.
  split; [|exact Fl].
  erewrite bind_ret by exact Hrun. rewrite end_module_run.
  assert (P : (0 <? utest_n_failures s') = true) by (apply N.ltb_lt; lia).
  rewrite P. reflexivity.
Qed.

(** ** Failing, throwing and passing checks *)

(** X3. A check that fails without being critical, of whichever macro, hands
    over to the statement after it, in the state in which the failure is
    recorded and its diagnostic written. *)
Theorem noncritical_failure_continues {U} (m : exec U unit) loc
    (s s' : state U) rest :
  checked m loc false s s' false rest ->
  m s = Ret tt (failed loc rest s')
  /\ forall k : exec U unit, (m ;; k) s = k (failed loc rest s').
Proof.
  intros H.
  assert (E : m s = Ret tt (failed loc rest s'))
    by (rewrite (checked_run H); reflexivity).
  split; [exact E|].
  intros k. erewrite bind_ret by exact E. reflexivity.
Qed.

(** X4. When the expression of a boolean check throws, the check is counted
    but nothing is recorded or written for it: the exception leaves the
    check, critical or not, skips what follows, and at the module boundary
    ends the process with FAILURE and the report of the uncaught
    exception. *)
Theorem predicate_exception_escapes {U} loc (check : expr U bool) critical
    (s s' : state U) e :
  eval check (after_count s) = Raise e s' ->
  UTEST_EVALUATE loc check critical s = Raise e s'
  /\ (forall k : exec U unit,
      (UTEST_EVALUATE loc check critical ;; k) s = Raise e s')
  /\ (forall name (pre k : exec U unit) s0,
      (UTEST_BEGIN_MODULE name ;; pre) s0 = Ret tt s ->
      main name (pre ;; UTEST_EVALUATE loc check critical ;; k) s0
      = Halt EXIT_FAILURE (set_cout (cout s' ++ uncaught_report e) s')).
Proof.
  intros H.
  assert (E : UTEST_EVALUATE loc check critical s = Raise e s').
  { unfold UTEST_EVALUATE. cbn. unfold after_count in H. now rewrite H. }
  assert (B : forall k : exec U unit,
             (UTEST_EVALUATE loc check critical ;; k) s = Raise e s').
  { intros k. cbn [bind Monad_exec]. now rewrite E. }
  split; [exact E|]. split; [exact B|].
  intros name pre k s0 Hpre. rewrite main_run.
  change ((UTEST_BEGIN_MODULE name ;; pre ;; UTEST_EVALUATE loc check critical ;; k) s0)
    with (bind (UTEST_BEGIN_MODULE name ;; pre)
               (fun _ => UTEST_EVALUATE loc check critical ;; k) s0).
  erewrite bind_ret by exact Hpre. now rewrite B.
Qed.

(** X5. In a relational check an operand that throws ends the check there:
    when the left operand throws, the right operand is not evaluated,
    whatever it is, and when the right operand throws, what the left operand
    did stays; in both cases the check is counted and nothing is recorded. *)
Theorem relational_operand_throws {U A B} `{Show A} `{Show B} loc
    (left : expr U A) (right : expr U B) op critical (s : state U) :
  (forall e s1,
      eval left (after_count s) = Raise e s1 ->
      forall right' : expr U B,
        UTEST_EVALUATE_BINARY_OP loc left right' op critical s = Raise e s1)
  /\ (forall a s1 e s2,
      eval left (after_count s) = Ret a s1 ->
      eval right s1 = Raise e s2 ->
      UTEST_EVALUATE_BINARY_OP loc left right op critical s = Raise e s2).
Proof.
  split.
  - intros e s1 Hl right'. unfold UTEST_EVALUATE_BINARY_OP. cbn.
    unfold after_count in Hl. now rewrite Hl.
  - intros a s1 e s2 Hl Hr. unfold UTEST_EVALUATE_BINARY_OP. cbn.
    unfold after_count in Hl. now rewrite Hl, Hr.
Qed.

(** X6. The critical flag matters only when the check fails: as long as
    the check does not fail, because it passes or because evaluating it
    throws or leaves the process, the critical and the plain variant of a
    check do the same; a passing critical check returns to the next
    statement. *)
Theorem critical_flag_only_on_failure {U A B} `{Show A} `{Show B} loc
    (check : expr U bool) (left : expr U A) (right : expr U B) op
    (call : expr U A) exception (s : state U) :
  ((forall s1, eval check (after_count s) <> Ret false s1) ->
   UTEST_EVALUATE loc check true s = UTEST_EVALUATE loc check false s)
  /\ (forall s1, eval check (after_count s) = Ret true s1 ->
      UTEST_EVALUATE loc check true s = Ret tt s1)
  /\ ((forall a s1 b s2,
          eval left (after_count s) = Ret a s1 ->
          eval right s1 = Ret b s2 ->
          op_holds op a b = true) ->
      UTEST_EVALUATE_BINARY_OP loc left right op true s
      = UTEST_EVALUATE_BINARY_OP loc left right op false s)
  /\ ((forall st s1,
          check_throw exception (eval call ;; ret tt) (after_count s)
            = Ret st s1 ->
          st = expected) ->
      UTEST_THROW loc call exception true s
      = UTEST_THROW loc call exception false s)
  /\ ((forall st s1,
          check_throw "std::exception" (eval call ;; ret tt) (after_count s)
            = Ret st s1 ->
          st = none) ->
      UTEST_NOTHROW loc call true s = UTEST_NOTHROW loc call false s).
Proof.
  split; [|split; [|split; [|split]]].
  - intros NF. unfold UTEST_EVALUATE. cbn.
    destruct (eval check _) as [[] s1 | e s1 | c s1] eqn:E; try reflexivity.
    exfalso. exact (NF s1 eq_refl).
  - intros s1 E.
    exact (checked_run (checked_boolean loc check true s E)).
  - intros NF. unfold UTEST_EVALUATE_BINARY_OP. cbn.
    destruct (eval left _) as [a s1 | e s1 | c s1] eqn:El; try reflexivity.
    destruct (eval right s1) as [b s2 | e s2 | c s2] eqn:Er; try reflexivity.
    rewrite (NF a s1 b s2 eq_refl Er). reflexivity.
  - intros NF. unfold UTEST_THROW. cbn [bind Monad_exec].
    rewrite count_check_run.
    destruct (check_throw exception _ _) as [st s1 | e s1 | c s1] eqn:E;
      try reflexivity.
    rewrite (NF st s1 eq_refl). reflexivity.
  - intros NF. unfold UTEST_NOTHROW. cbn [bind Monad_exec].
    rewrite count_check_run.
    destruct (check_throw "std::exception" _ _) as [st s1 | e s1 | c s1] eqn:E;
      try reflexivity.
    rewrite (NF st s1 eq_refl). reflexivity.
Qed.

(** ** Cases and labels *)

Lemma case_run {U} name (s : state U) :
  UTEST_CASE name s
  = Ret tt (set_cout (cout s ++ "running test case [" ++ utest_module_name s
                        ++ "/" ++ name ++ "] ..." ++ endl)
              (set_case_name name
                 (set_n_cases (size_incr (utest_n_cases s)) s))).
Proof. reflexivity. Qed.

Lemma cases_run {U} (names : list string) (s : state U) :
  utest_n_cases s < 2 ^ SIZE_WIDTH ->
  exists s',
    sequence (map UTEST_CASE names) s = Ret tt s'
    /\ same_counters s s'
    /\ utest_module_name s' = utest_module_name s
    /\ user s' = user s
    /\ utest_n_cases s'
       = (utest_n_cases s + N.of_nat (length names)) mod 2 ^ SIZE_WIDTH.
Proof.
  revert s. induction names as [|name names IH]; intros s Lt.
  - exists s. cbn [map sequence length N.of_nat].
    rewrite N.add_0_r, N.mod_small by assumption.
    repeat split; reflexivity.
  - cbn [map sequence].
    destruct (IH (set_cout (cout s ++ "running test case ["
                              ++ utest_module_name s ++ "/" ++ name
                              ++ "] ..." ++ endl)
                    (set_case_name name
                       (set_n_cases (size_incr (utest_n_cases s)) s))))
      as (s' & Run & [C1 C2] & Mn & Us & Nc).
    { apply size_incr_lt. }
    exists s'. erewrite bind_ret by apply case_run.
    split; [exact Run|]. split; [split; [exact C1 | exact C2]|].
    split; [exact Mn|]. split; [exact Us|].
    rewrite Nc. cbn [utest_n_cases set_cout set_case_name set_n_cases].
    unfold size_incr. rewrite N.Div0.add_mod_idemp_l.
    cbn [length]. rewrite Nat2N.inj_succ. f_equal. lia.
Qed.

(** X7. A module in which no check is evaluated, only cases started, as many
    as one likes or none, ends with SUCCESS; its summary counts 0 checks, with
    the singular, and [utest_n_cases] has counted the cases. *)
Theorem module_without_checks {U} name (names : list string) (u : U) :
  exists sf,
    main name (sequence (map UTEST_CASE names)) (initial u)
      = Halt EXIT_SUCCESS sf
    /\ utest_n_checks sf = 0
    /\ utest_n_failures sf = 0
    /\ utest_n_cases sf = N.of_nat (length names) mod 2 ^ SIZE_WIDTH
    /\ exists before,
         cout sf = before ++ "  no errors detected in 0 check." ++ endl.
Proof.
  destruct (cases_run names (set_module_name name (initial u)))
    as (s' & Run & [C1 C2] & _ & _ & Nc).
  { reflexivity. }
  cbn in C1, C2, Nc.
  rewrite main_run.
  change ((UTEST_BEGIN_MODULE name ;; sequence (map UTEST_CASE names))
            (initial u))
    with (sequence (map UTEST_CASE names) (set_module_name name (initial u))).
  rewrite Run, end_module_run. rewrite <- C2. cbn [N.ltb N.compare].
  eexists. split; [reflexivity|].
  cbn [utest_n_checks utest_n_failures utest_n_cases set_cout cout].
  split; [now rewrite <- C1|]. split; [now rewrite <- C2|].
  split; [exact Nc|].
  exists (cout s'). unfold summary. rewrite <- C1, <- C2. reflexivity.
Qed.

(** X8. The diagnostic of a failing check is labelled with the module name
    of the run and the name of the case started last, whatever case name was
    current before, for a check of whichever macro whose operands leave the
    two names alone. *)
Theorem diagnostic_label {U} b (m : exec U unit) loc critical
    (s s1 s' : state U) rest :
  UTEST_CASE b s = Ret tt s1 ->
  checked m loc critical s1 s' false rest ->
  utest_module_name s' = utest_module_name s1 ->
  utest_case_name s' = utest_case_name s1 ->
  cout (final ((UTEST_CASE b ;; m) s))
  = cout s' ++ file loc ++ ":" ++ show (line loc) ++ ": ["
      ++ utest_module_name s ++ "/" ++ b ++ rest.
Proof.
  intros Hc H Mn Cn.
  erewrite bind_ret by exact Hc.
  rewrite (checked_run H), after_failure_final, failed_cout.
  unfold diagnostic. rewrite Mn, Cn.
  rewrite case_run in Hc. injection Hc as <-. reflexivity.
Qed.

(** X9. A check that passes ends in the state its operands left.  A check
    that fails counts one more failure, appends one line to the output, made
    of the place, the label and a message closed by an exclamation mark and a
    line end, and leaves [std::cout] in fixed notation with precision 12,
    whatever its format was.  In both cases the names, the case counter, the
    check counter and the state of the code under test are as the operands
    left them. *)
Theorem check_frame {U} (m : exec U unit) loc critical (s s' : state U)
    passed rest :
  checked m loc critical s s' passed rest ->
  utest_case_name (final (m s)) = utest_case_name s'
  /\ utest_module_name (final (m s)) = utest_module_name s'
  /\ utest_n_cases (final (m s)) = utest_n_cases s'
  /\ utest_n_checks (final (m s)) = utest_n_checks s'
  /\ user (final (m s)) = user s'
  /\ (passed = true -> final (m s) = s')
  /\ (passed = false ->
      utest_n_failures (final (m s)) = size_incr (utest_n_failures s')
      /\ cout_format (final (m s)) = fixed12
      /\ exists message,
           cout (final (m s))
           = cout s' ++ file loc ++ ":" ++ show (line loc) ++ ": ["
               ++ utest_module_name s' ++ "/" ++ utest_case_name s' ++ "]: "
               ++ message ++ "!" ++ endl).
Proof.
  intros H. rewrite (checked_run H).
  assert (Pass : forall (p : bool) (r : string),
             p = true ->
             let sf := final (if p then Ret (U:=U) tt s'
                              else after_failure critical (failed loc r s')) in
             utest_case_name sf = utest_case_name s'
             /\ utest_module_name sf = utest_module_name s'
             /\ utest_n_cases sf = utest_n_cases s'
             /\ utest_n_checks sf = utest_n_checks s'
             /\ user sf = user s'
             /\ (p = true -> sf = s')
             /\ (p = false ->
                 utest_n_failures sf = size_incr (utest_n_failures s')
                 /\ cout_format sf = fixed12
                 /\ exists message,
                      cout sf
                      = cout s' ++ file loc ++ ":" ++ show (line loc) ++ ": ["
                          ++ utest_module_name s' ++ "/" ++ utest_case_name s'
                          ++ "]: " ++ message ++ "!" ++ endl)).
  { intros p r ->. cbn. repeat split; try reflexivity; discriminate. }
  assert (Fail : forall (r message : string),
             r = "]: " ++ message ++ "!" ++ endl ->
             let sf := final (after_failure critical (failed loc r s')) in
             utest_case_name sf = utest_case_name s'
             /\ utest_module_name sf = utest_module_name s'
             /\ utest_n_cases sf = utest_n_cases s'
             /\ utest_n_checks sf = utest_n_checks s'
             /\ user sf = user s'
             /\ (false = true -> sf = s')
             /\ (false = false ->
                 utest_n_failures sf = size_incr (utest_n_failures s')
                 /\ cout_format sf = fixed12
                 /\ exists message,
                      cout sf
                      = cout s' ++ file loc ++ ":" ++ show (line loc) ++ ": ["
                          ++ utest_module_name s' ++ "/" ++ utest_case_name s'
                          ++ "]: " ++ message ++ "!" ++ endl)).
  { intros r message ->. cbn zeta. rewrite after_failure_final.
    repeat split; try reflexivity; try discriminate.
    exists message. reflexivity. }
  destruct H as
    [ loc check critical s s' b Hc
    | A B SA SB loc left right op critical s s1 s' a b Hl Hr
    | A loc call exception critical s s' st Hc
    | A loc call critical s s' st Hc ].
  - destruct b; [exact (Pass true EmptyString eq_refl)|].
    refine (Fail _ ("check {" ++ text check ++ "} failed") _).
    repeat first [rewrite !append_assoc | progress cbn [append]]. reflexivity.
  - destruct (op_holds op a b); [exact (Pass true EmptyString eq_refl)|].
    refine (Fail _ ("check {" ++ text left ++ " " ++ op_text op ++ " "
                    ++ text right ++ "} failed {" ++ show a ++ " "
                    ++ op_text op ++ " " ++ show b ++ "}") _).
    repeat first [rewrite !append_assoc | progress cbn [append]]. reflexivity.
  - destruct st; [| exact (Pass true EmptyString eq_refl) |].
    + refine (Fail _ ("call {" ++ text call ++ "} does not throw") _).
      repeat first [rewrite !append_assoc | progress cbn [append]].
      reflexivity.
    + refine (Fail _ ("call {" ++ text call ++ "} does not throw {"
                      ++ exception ++ "}") _).
      repeat first [rewrite !append_assoc | progress cbn [append]].
      reflexivity.
  - destruct st; [exact (Pass true EmptyString eq_refl) | |];
      refine (Fail _ ("call {" ++ text call ++ "} throws") _);
      repeat first [rewrite !append_assoc | progress cbn [append]];
      reflexivity.
Qed.

(** ** The checks on Eigen values *)

Lemma eigen_size_check {U V A} `{EigenLike V A} loc (left right : expr U V)
    (s s1 s2 : state U) l r :
  eval left (after_count s) = Ret l s1 ->
  eval right s1 = Ret r s2 ->
  checked (UTEST_REQUIRE_EQUAL loc (eigen_size_of left) (eigen_size_of right))
          loc true s s2 (Z.eqb (eigen_size l) (eigen_size r))
          ("]: check {" ++ text (eigen_size_of left) ++ " == "
           ++ text (eigen_size_of right) ++ "} failed {"
           ++ show (eigen_size l) ++ " == " ++ show (eigen_size r)
           ++ "}!" ++ endl).
Proof.
  intros Hl Hr.
  refine (checked_relational _ _ loc (eigen_size_of left)
            (eigen_size_of right) (BinOp "==" cmp_eq) true s
            (s1 := s1) (a := eigen_size l) (b := eigen_size r) _ _).
  - cbn. now rewrite Hl.
  - cbn. now rewrite Hr.
Qed.


(** X10. When the two operands differ in size, the size check ends the
    process with FAILURE, in the plain variant of the macro as in the
    critical one: one check is counted, one failure recorded, the diagnostic
    shows the two sizes, and neither the difference of the operands nor the
    tolerance is evaluated. *)
Theorem eigen_size_mismatch_terminates {U V A} `{EigenLike V A} `{Show A}
    `{Comparable A} `{Arith A} `{C : Compiler} loc (left right : expr U V)
    (s s1 s2 : state U) l r :
  eval left (after_count s) = Ret l s1 ->
  eval right s1 = Ret r s2 ->
  eigen_size l <> eigen_size r ->
  forall (epsilon : tolerance U A) critical,
    UTEST_EVALUATE_EIGEN_CLOSE loc left right epsilon critical s
    = Halt EXIT_FAILURE
        (failed loc
           ("]: check {" ++ text (eigen_size_of left) ++ " == "
            ++ text (eigen_size_of right) ++ "} failed {"
            ++ show (eigen_size l) ++ " == " ++ show (eigen_size r)
            ++ "}!" ++ endl) s2).
Proof.
  intros Hl Hr Ne epsilon critical.
  pose proof (eigen_size_check loc left right s Hl Hr) as C1.
  apply Z.eqb_neq in Ne. rewrite Ne in C1.
  unfold UTEST_EVALUATE_EIGEN_CLOSE. apply bind_halt.
  rewrite (checked_run C1). reflexivity.
Qed.


(** X12. With a tolerance that binds at least as tightly as [*], each use
    of the macro on operands of one size evaluates both operands three
    times, for the sizes, for the difference and for the bound, whatever the
    order of evaluation: an observer that an evaluation of [left] advances by
    [kl], one of [right] by [kr] and one of the tolerance by [ke] stands
    [3 * kl + 3 * kr + ke] higher afterwards. *)
Theorem eigen_close_evaluates_thrice {U V A} `{EigenLike V A} `{Show A}
    `{Comparable A} `{Arith A} `{C : Compiler} loc (left right : expr U V)
    (e : expr U A) critical (n : U -> nat) kl kr ke size (s : state U) :
  ticks n kl (eval left) ->
  ticks n kr (eval right) ->
  ticks n ke (eval e) ->
  (forall s0 v s', eval left s0 = Ret v s' -> eigen_size v = size) ->
  (forall s0 v s', eval right s0 = Ret v s' -> eigen_size v = size) ->
  n (user (final (UTEST_EVALUATE_EIGEN_CLOSE loc left right (plain e)
                                             critical s)))
  = (3 * kl + 3 * kr + ke + n (user s))%nat.
Proof.
  intros Hl Hr He Sl Sr.
  destruct (Hl (after_count s)) as (l1 & s1 & E1 & N1).
  destruct (Hr s1) as (r1 & s2 & E2 & N2).
  pose proof (eigen_size_check loc left right s E1 E2) as C1.
  rewrite (Sl _ _ _ E1), (Sr _ _ _ E2), Z.eqb_refl in C1.
  unfold UTEST_EVALUATE_EIGEN_CLOSE.
  erewrite bind_ret by (rewrite (checked_run C1); reflexivity).
  unfold UTEST_EVALUATE_LESS.
  rewrite (binary_op_ticks loc (eigen_distance left right)
             (eigen_bound left right (plain e)) (BinOp "<" cmp_lt) critical
             (n := n) (k := (kl + kr)%nat) (j := (ke + (kl + kr))%nat) s2).
  - rewrite N2, N1. cbn. lia.
  - cbn [eval eigen_distance]. apply ticks_map. now apply ticks_both.
  - cbn [eval eigen_bound plain tol_parse splice]. apply ticks_map.
    apply ticks_both; [exact He|].
    unfold eigen_scale. apply ticks_map. now apply ticks_both.
Qed.

(** ** The further properties at concrete programs *)

Lemma counted_step_case {U} name : counted_step (U:=U) (UTEST_CASE name).
Proof. intros s. right. split; reflexivity. Qed.

Lemma counted_step_value_check {U} loc t (b critical : bool) :
  counted_step (U:=U) (UTEST_EVALUATE loc (value t b) critical).
Proof.
  intros s. left.
  exists loc, critical, (after_count s), b,
         ("]: check {" ++ t ++ "} failed!" ++ endl).
  split; [|split; reflexivity].
  apply (checked_boolean loc (value t b) critical). reflexivity.
Qed.

Lemma module_run_counters_witness :
  let L := At "test.cpp" 7 in
  let ms : list (exec unit unit) :=
    [UTEST_CASE "a"; UTEST_CHECK L (value "true" true);
     UTEST_REQUIRE L (value "false" false);
     UTEST_CHECK L (value "true" true)] in
  Forall counted_step ms
  /\ N.of_nat (length ms) <= SIZE_MAX
  /\ utest_n_failures (final (main "m" (sequence ms) (initial tt)))
     <= utest_n_checks (final (main "m" (sequence ms) (initial tt)))
  /\ utest_n_checks (final (main "m" (sequence ms) (initial tt)))
     <= N.of_nat (length ms).
Proof.
  intros L ms.
  assert (F : Forall counted_step ms).
  { apply Forall_cons; [apply counted_step_case|].
    apply Forall_cons; [apply counted_step_value_check|].
    apply Forall_cons; [apply counted_step_value_check|].
    apply Forall_cons; [apply counted_step_value_check|].
    apply Forall_nil. }
  assert (R : N.of_nat (length ms) <= SIZE_MAX) by (vm_compute; discriminate).
  split; [exact F|]. split; [exact R|].
  exact (module_run_counters "m" tt F R).
Defined.

Lemma failure_is_kept_witness :
  let L := At "test.cpp" 7 in
  let ms : list (exec unit unit) := [UTEST_CHECK L (value "true" true)] in
  let s := State EmptyString "m" 0 1 1 EmptyString fixed12 tt in
  Forall counted_step ms
  /\ counters_ok s
  /\ utest_n_checks s + N.of_nat (length ms) <= SIZE_MAX
  /\ 0 < utest_n_failures s
  /\ sequence ms s = Ret tt (after_count s)
  /\ (sequence ms ;; UTEST_END_MODULE) s
     = Halt EXIT_FAILURE
         (State EmptyString "m" 0 2 1
                ("  failed with 1 errors in 2 checks!" ++ endl) fixed12 tt).
Proof.
  intros L ms s.
  assert (F : Forall counted_step ms)
    by (apply Forall_cons; [apply counted_step_value_check | apply Forall_nil]).
  assert (Ok : counters_ok s) by (vm_compute; discriminate).
  assert (R : utest_n_checks s + N.of_nat (length ms) <= SIZE_MAX)
    by (vm_compute; discriminate).
  assert (P : 0 < utest_n_failures s) by reflexivity.
  assert (E : sequence ms s = Ret tt (after_count s)) by reflexivity.
  repeat (split; [assumption|]).
  exact (proj1 (failure_is_kept F Ok R P E)).
Defined.

Lemma noncritical_failure_continues_witness :
  let L := At "test.cpp" 7 in
  let m : exec unit unit := UTEST_CHECK L (value "false" false) in
  let s := initial tt in
  let rest := "]: check {false} failed!" ++ endl in
  checked m L false s (after_count s) false rest
  /\ (m ;; UTEST_CHECK L (value "true" true)) s
     = Ret tt (State EmptyString EmptyString 0 2 1
                 ("test.cpp:7: [/]: check {false} failed!" ++ endl)
                 fixed12 tt).
Proof.
  intros L m s rest.
  assert (H : checked m L false s (after_count s) false rest)
    by (apply (checked_boolean L (value "false" false) false); reflexivity).
  split; [exact H|].
  exact (proj2 (noncritical_failure_continues H)
               (UTEST_CHECK L (value "true" true))).
Defined.

Lemma predicate_exception_escapes_witness :
  let L := At "test.cpp" 7 in
  let e := Thrown ["std::runtime_error"; "std::exception"] "boom" in
  let check : expr unit bool := Expr "f()" (raise e) in
  let s := initial tt in
  eval check (after_count s) = Raise e (after_count s)
  /\ UTEST_EVALUATE L check true s = Raise e (after_count s).
Proof.
  intros L e check s.
  assert (H : eval check (after_count s) = Raise e (after_count s))
    by reflexivity.
  split; [exact H|].
  exact (proj1 (predicate_exception_escapes L check true s H)).
Defined.

Lemma relational_operand_throws_witness :
  let L := At "test.cpp" 7 in
  let e := Thrown ["int"] EmptyString in
  let left : expr (nat * nat) Z := Expr "f()" (raise e) in
  let right := counting_call "g()" true 5%Z in
  let s := initial (0, 0)%nat in
  eval left (after_count s) = Raise e (after_count s)
  /\ UTEST_EVALUATE_BINARY_OP L left right (BinOp "==" cmp_eq) false s
     = Raise e (after_count s).
Proof.
  intros L e left right s.
  assert (H : eval left (after_count s) = Raise e (after_count s))
    by reflexivity.
  split; [exact H|].
  exact (proj1 (relational_operand_throws L left right (BinOp "==" cmp_eq)
                  false s) e (after_count s) H right).
Defined.

Lemma diagnostic_label_witness :
  let L := At "test.cpp" 7 in
  let m : exec unit unit := UTEST_CHECK L (value "false" false) in
  let s := State "a" "m" 1 0 0 EmptyString default_format tt in
  let s1 := State "b" "m" 2 0 0 ("running test case [m/b] ..." ++ endl)
                  default_format tt in
  let rest := "]: check {false} failed!" ++ endl in
  UTEST_CASE "b" s = Ret tt s1
  /\ checked m L false s1 (after_count s1) false rest
  /\ cout (final ((UTEST_CASE "b" ;; m) s))
     = "running test case [m/b] ..." ++ endl
       ++ "test.cpp:7: [m/b]: check {false} failed!" ++ endl.
Proof.
  intros L m s s1 rest.
  assert (Hc : UTEST_CASE "b" s = Ret tt s1) by reflexivity.
  assert (H : checked m L false s1 (after_count s1) false rest)
    by (apply (checked_boolean L (value "false" false) false); reflexivity).
  split; [exact Hc|]. split; [exact H|].
  exact (diagnostic_label Hc H eq_refl eq_refl).
Defined.

Lemma critical_flag_only_on_failure_witness :
  let L := At "test.cpp" 7 in
  let check : expr unit bool := value "true" true in
  let s := initial tt in
  (forall s1, eval check (after_count s) <> Ret false s1)
  /\ UTEST_EVALUATE L check true s = UTEST_EVALUATE L check false s.
Proof.
  intros L check s.
  assert (NF : forall s1, eval check (after_count s) <> Ret false s1)
    by (intros s1; discriminate).
  split; [exact NF|].
  exact (proj1 (critical_flag_only_on_failure L check (value "1" 1%Z)
                  (value "2" 2%Z) (BinOp "==" cmp_eq) (value "3" 3%Z)
                  "std::exception" s) NF).
Defined.

Lemma check_frame_witness :
  let L := At "test.cpp" 7 in
  let m : exec unit unit := UTEST_REQUIRE L (value "false" false) in
  let s := initial tt in
  let rest := "]: check {false} failed!" ++ endl in
  checked m L true s (after_count s) false rest
  /\ utest_n_checks (final (m s)) = 1
  /\ user (final (m s)) = tt
  /\ cout_format (final (m s)) = fixed12.
Proof.
  intros L m s rest.
  assert (H : checked m L true s (after_count s) false rest)
    by (apply (checked_boolean L (value "false" false) true); reflexivity).
  split; [exact H|].
  destruct (check_frame H) as (_ & _ & _ & E & Eu & _ & F).
  split; [exact E|]. split; [exact Eu|].
  exact (proj1 (proj2 (F eq_refl))).
Defined.

Lemma eigen_size_mismatch_terminates_witness :
  let L := At "test.cpp" 7 in
  let left : expr unit (list float) := value "a" [1.0%float] in
  let right : expr unit (list float) := value "b" [1.0%float; 2.0%float] in
  let s := initial tt in
  eval left (after_count s) = Ret [1.0%float] (after_count s)
  /\ eval right (after_count s) = Ret [1.0%float; 2.0%float] (after_count s)
  /\ eigen_size [1.0%float] <> eigen_size [1.0%float; 2.0%float]
  /\ UTEST_CHECK_EIGEN_CLOSE (C := right_to_left) L left right
                             (plain (value "1e-6" 1e-6%float)) s
     = Halt EXIT_FAILURE
         (State EmptyString EmptyString 0 1 1
            ("test.cpp:7: [/]: check {(a).size() == (b).size()} "
             ++ "failed {1 == 2}!" ++ endl) fixed12 tt).
Proof.
  intros L left right s.
  assert (Hl : eval left (after_count s) = Ret [1.0%float] (after_count s))
    by reflexivity.
  assert (Hr : eval right (after_count s)
               = Ret [1.0%float; 2.0%float] (after_count s))
    by reflexivity.
  assert (Ne : eigen_size [1.0%float] <> eigen_size [1.0%float; 2.0%float])
    by (vm_compute; discriminate).
  repeat (split; [assumption|]).
  exact (eigen_size_mismatch_terminates (C := right_to_left) L left right s
           Hl Hr Ne (plain (value "1e-6" 1e-6%float)) false).
Defined.


Lemma eigen_close_evaluates_thrice_witness :
  let L := At "test.cpp" 7 in
  let a := [1.0%float; 2.0%float] in
  let left := counting_call "f()" false a in
  let right := counting_call "g()" true a in
  let e : expr (nat * nat) float := value "1e-6" 1e-6%float in
  let s := initial (0, 0)%nat in
  ticks fst 1 (eval left)
  /\ ticks fst 0 (eval right)
  /\ ticks fst 0 (eval e)
  /\ fst (user (final (UTEST_EVALUATE_EIGEN_CLOSE (C := right_to_left) L left
                                                  right (plain e) false s)))
     = 3%nat.
Proof.
  intros L a left right e s.
  assert (Tl : ticks fst 1 (eval left)).
  { intros s0. eexists _, _. split; reflexivity. }
  assert (Tr : ticks fst 0 (eval right)).
  { intros s0. eexists _, _. split; reflexivity. }
  assert (Te : ticks fst 0 (eval e)).
  { intros s0. eexists _, _. split; reflexivity. }
  repeat (split; [assumption|]).
  refine (eigen_close_evaluates_thrice (C := right_to_left) L left right e
            false (size := 2%Z) s Tl Tr Te _ _).
  - intros s0 v s' [= <- _]. reflexivity.
  - intros s0 v s' [= <- _]. reflexivity.
Defined.

(** ** The exception checks on a call *)

(** X13. The two exception checks read off what the call does.  When the
    call returns, [UTEST_NOTHROW] passes and [UTEST_THROW] fails with "does
    not throw".  When it throws, [UTEST_NOTHROW] fails, whatever was thrown,
    and [UTEST_THROW] passes exactly when a handler for the designated
    exception binds what was thrown; so for a call that throws something
    that is not a [std::exception], both [UTEST_NOTHROW] and [UTEST_THROW]
    of [std::exception] fail.  What the call did before it threw stays. *)
Theorem exception_checks_on_call {U A} loc (call : expr U A) exception
    critical (s : state U) :
  (forall a s',
      eval call (after_count s) = Ret a s' ->
      UTEST_NOTHROW loc call critical s = Ret tt s'
      /\ UTEST_THROW loc call exception critical s
         = after_failure critical
             (failed loc ("]: call {" ++ text call ++ "} does not throw!"
                          ++ endl) s'))
  /\ (forall e s',
      eval call (after_count s) = Raise e s' ->
      UTEST_NOTHROW loc call critical s
        = after_failure critical
            (failed loc ("]: call {" ++ text call ++ "} throws!" ++ endl) s')
      /\ UTEST_THROW loc call exception critical s
         = if handler_matches exception e then Ret tt s'
           else after_failure critical
                  (failed loc ("]: call {" ++ text call
                               ++ "} does not throw {" ++ exception ++ "}!"
                               ++ endl) s')).
Proof.
  split.
  - intros a s' Hc.
    assert (K : forall t, check_throw t (eval call ;; ret tt) (after_count s)
                          = Ret none s').
    { intros t. rewrite check_throw_run. cbn. now rewrite Hc. }
    split.
    + exact (checked_run (checked_nothrow loc call critical s (K _))).
    + exact (checked_run (checked_throw loc call exception critical s (K _))).
  - intros e s' Hc.
    assert (K : forall t, check_throw t (eval call ;; ret tt) (after_count s)
                          = Ret (if handler_matches t e then expected
                                 else unexpected) s').
    { intros t. rewrite check_throw_run. cbn. now rewrite Hc. }
    split.
    + rewrite (checked_run (checked_nothrow loc call critical s (K _))).
      destruct (handler_matches "std::exception" e); reflexivity.
    + rewrite (checked_run (checked_throw loc call exception critical s (K _))).
      destruct (handler_matches exception e); reflexivity.
Qed.

Lemma exception_checks_on_call_witness :
  let L := At "test.cpp" 7 in
  let e := Thrown ["int"] EmptyString in
  let call : expr unit unit := Expr "g()" throw_int in
  let s := initial tt in
  eval call (after_count s) = Raise e (after_count s)
  /\ utest_n_failures (final (UTEST_NOTHROW L call false s)) = 1
  /\ utest_n_failures (final (UTEST_THROW L call "std::exception" false s)) = 1.
Proof.
  intros L e call s.
  assert (H : eval call (after_count s) = Raise e (after_count s))
    by reflexivity.
  split; [exact H|].
  destruct (proj2 (exception_checks_on_call L call "std::exception" false s)
              e (after_count s) H) as [E1 E2].
  rewrite E1, E2. split; reflexivity.
Defined.
